(** * netviz/one_page_report.cpp: the one-page report of tcpflow

    A shallow embedding of [one_page_report]: the per-packet ingestion
    ([one_page_report::ingest_packet]) and the render pass that lays the
    report out on one page ([one_page_report::render] and the methods of
    [one_page_report::render_pass]).

    Conventions.
    - [uint64_t] counters are [N] with the wrap-around written out
      ([wrap64]); [time_t] and [suseconds_t] are [Z].
    - [double] is Rocq's primitive binary64 [float]; [+], [*], [/] and [<]
      are the IEEE operations the C++ code runs.
    - [std::map<uint32_t, uint64_t>] is [gmap N N].
    - Collaborators whose code lives in other translation units (the packet
      decoders of [tcpip], the histograms, the address trees, cairo, libm)
      are interfaces: type classes whose instances a caller supplies.  The
      statistics collaborators are observed through the calls they receive. *)

From Stdlib Require Import ZArith NArith List Bool Lia String.
From Stdlib Require Import Strings.Byte.
From Stdlib Require Import PrimFloat SpecFloat FloatOps FloatAxioms.
From stdpp Require Import base option list fin_maps gmap.

Set Default Proof Using "Type".
Set Warnings "-inexact-float".
Open Scope N_scope.

(** ** Machine numbers *)

Abbreviation double := float (only parsing).

(** Unsigned 64-bit arithmetic wraps. *)
Definition wrap64 (n : N) : N := n mod 2 ^ 64.

(** [(double) n] for an unsigned integer [n]: round to nearest, ties to even. *)
Definition double_of_uint64 (n : N) : double :=
  SF2Prim (binary_normalize prec emax (Z.of_N n) 0 false).

(** The integer part of a double, rounding toward zero; [None] for NaN and
    the infinities.  A finite double is [(-1)^s * m * 2^e]. *)
Definition double_trunc (x : double) : option Z :=
  match Prim2SF x with
  | S754_zero _ => Some 0%Z
  | S754_finite s m e =>
      let v := if s then Z.neg m else Z.pos m in
      Some (if (0 <=? e)%Z then v * 2 ^ e else Z.quot v (2 ^ (- e)))%Z
  | S754_infinity _ | S754_nan => None
  end.

(** The SSE2 conversion [cvttsd2si] to a signed integer of [w] bits: the
    truncated value when it fits, the "integer indefinite" [-2^(w-1)]
    otherwise. *)
Definition cvttsd2si (w : Z) (x : double) : Z :=
  match double_trunc x with
  | Some z =>
      if ((- 2 ^ (w - 1) <=? z) && (z <? 2 ^ (w - 1)))%Z then z
      else (- 2 ^ (w - 1))%Z
  | None => (- 2 ^ (w - 1))%Z
  end.

(** [(uint64_t) x].  In range (-1 < x < 2^64) this is truncation toward zero,
    as C++ defines it.  Out of range the conversion is undefined in C++; the
    model gives what the code compiled for x86-64 computes: operands below
    2^63 go through [cvttsd2si], the others through [cvttsd2si] of
    [x - 2^63] with the top bit flipped. *)
Definition double_to_uint64 (x : double) : N :=
  let two63 := double_of_uint64 (2 ^ 63) in
  if (two63 <=? x)%float
  then Z.to_N ((cvttsd2si 64 (x - two63)%float + 2 ^ 63) mod 2 ^ 64)%Z
  else Z.to_N (cvttsd2si 64 x mod 2 ^ 64)%Z.

(** [(uint8_t) x]: truncation toward zero for -1 < x < 256; out of range
    (undefined in C++) the low byte of the 32-bit [cvttsd2si]. *)
Definition double_to_uint8 (x : double) : Z :=
  (cvttsd2si 32 x mod 256)%Z.

(** [std::max] on doubles: [(a < b) ? b : a]. *)
Definition std_max (a b : double) : double :=
  if (a <? b)%float then b else a.

(** ** Packets *)

Record timeval := mk_timeval { tv_sec : Z; tv_usec : Z }.

(** [packet_info], as far as [one_page_report] reads it. *)
Record packet_info := mk_packet_info {
  ts : timeval;
  caplen : N;              (* pi.pcap_hdr->caplen, a bpf_u_int32 *)
  ether_type : N;          (* pi.ether_type() *)
  ip_data : list byte      (* pi.ip_data, pi.ip_datalen *)
}.

(** The address fields are kept as the bytes they occupy in the header,
    which is how [ingest_packet] hands them to the address trees. *)
Record ip4_dgram := mk_ip4_dgram {
  ip_src : list byte;      (* &header->ip_src.s_addr *)
  ip_dst : list byte;      (* &header->ip_dst.s_addr *)
  ip4_payload : list byte  (* payload, payload_len *)
}.

Record ip6_dgram := mk_ip6_dgram {
  ip6_src : list byte;     (* header->ip6_src.__u6_addr.__u6_addr8 *)
  ip6_dst : list byte;     (* header->ip6_dst.__u6_addr.__u6_addr8 *)
  ip6_payload : list byte
}.

Record tcp_seg := mk_tcp_seg {
  th_sport : N;
  th_dport : N;
  tcp_payload : list byte
}.

(** The decoders of [tcpip]: a [bool] result and an out-parameter in C++,
    an [option] here. *)
Class tcpip := {
  ip4_from_bytes : list byte -> option ip4_dgram;
  ip6_from_bytes : list byte -> option ip6_dgram;
  tcp_from_bytes : list byte -> option tcp_seg
}.

(** ** The report *)

(** [sizeof(in_addr.s_addr)] and [sizeof(in6_addr.__u6_addr8)]. *)
Definition sizeof_s_addr : N := 4.
Definition sizeof_u6_addr8 : N := 16.

(** An address tree, seen as the [add(addr, len)] calls it received. *)
Definition iptree := list (list byte * N).

Definition iptree_add (t : iptree) (addr : list byte) (len : N) : iptree :=
  t ++ [(addr, len)].

Module plot.
Record bounds_t := mk_bounds { x : double; y : double; width : double; height : double }.
End plot.

(** [count_histogram::count_pair]: a label and its count. *)
Definition count_pair : Type := string * N.

(** [count_histogram], as the report queries it: [get_count_sum()] and
    [get_top_list()]. *)
Record count_histogram := mk_count_histogram {
  get_count_sum : N;
  get_top_list : list count_pair
}.

Inductive relationship_t := SOURCE | DESTINATION.

(** [address_histogram]: what [quick_config] is given in the constructor, and
    the [parent_count_histogram] the report reads after rendering. *)
Record address_histogram := mk_address_histogram {
  relationship : relationship_t;
  title : string;
  parent_count_histogram : count_histogram
}.

Record one_page_report := mk_one_page_report {
  source_identifier : string;
  filename : string;
  bounds : plot.bounds_t;
  header_font_size : double;
  top_list_font_size : double;
  histogram_show_top_n_text : nat;
  packet_count : N;        (* uint64_t *)
  byte_count : N;          (* uint64_t *)
  earliest : timeval;
  latest : timeval;
  transport_counts : gmap N N;
  (* bandwidth_histogram.ingest_packet(pi, optional_tcp) calls *)
  bandwidth_histogram : list (packet_info * option tcp_seg);
  (* never fed by ingestion: filled from the trees when rendered *)
  src_addr_histogram : address_histogram;
  dst_addr_histogram : address_histogram;
  (* {src,dst}_port_histogram.ingest_packet(tcp) calls *)
  src_port_histogram : list tcp_seg;
  dst_port_histogram : list tcp_seg;
  (* pfall.ingest_packet(pi) calls *)
  pfall : list packet_info;
  src_tree : iptree;
  dst_tree : iptree
}.

(** [one_page_report::one_page_report()].  The plot titles and paddings the
    constructor also sets are presentation settings of the collaborators. *)
Definition new_one_page_report : one_page_report := {|
  source_identifier := EmptyString;
  filename := "report.pdf";
  bounds := plot.mk_bounds 0 0 611 792;
  header_font_size := 8;
  top_list_font_size := 8;
  histogram_show_top_n_text := 3;
  packet_count := 0;
  byte_count := 0;
  earliest := mk_timeval 0 0;
  latest := mk_timeval 0 0;
  transport_counts := ∅;
  bandwidth_histogram := [];
  src_addr_histogram :=
    mk_address_histogram SOURCE "Top Source Addresses" (mk_count_histogram 0 []);
  dst_addr_histogram :=
    mk_address_histogram DESTINATION "Top Destination Addresses"
      (mk_count_histogram 0 []);
  src_port_histogram := [];
  dst_port_histogram := [];
  pfall := [];
  src_tree := [];
  dst_tree := []
|}.

(** [std::map::operator[]]: the value under the key, and the map with a
    value-initialised entry inserted when the key was absent. *)
Definition map_subscript (m : gmap N N) (k : N) : N * gmap N N :=
  match m !! k with
  | Some v => (v, m)
  | None => (0, <[k := 0]> m)
  end.

Section ingest.
Context `{tcpip}.

(** [one_page_report::ingest_packet] *)
Definition ingest_packet (r : one_page_report) (pi : packet_info) : one_page_report :=
  let earliest' :=
    if (tv_sec (earliest r) =? 0)%Z then ts pi else earliest r in
  let latest' :=
    if ((tv_sec (latest r) <? tv_sec (ts pi)) &&
        (tv_usec (latest r) <? tv_usec (ts pi)))%Z
    then ts pi else latest r in
  let packet_count' := wrap64 (packet_count r + 1) in
  let byte_count' := wrap64 (byte_count r + caplen pi) in
  let transport_counts' :=
    let '(v, m) := map_subscript (transport_counts r) (ether_type pi) in
    <[ether_type pi := wrap64 (v + 1)]> m in
  (* IPv4?  IPv6 is tried only when IPv4 did not decode. *)
  let ip4 := ip4_from_bytes (ip_data pi) in
  let ip6 :=
    match ip4 with
    | Some _ => None
    | None => ip6_from_bytes (ip_data pi)
    end in
  let ip_payload :=
    match ip4, ip6 with
    | Some d, _ => ip4_payload d
    | None, Some d => ip6_payload d
    | None, None => []
    end in
  (* TCP? *)
  let optional_tcp := tcp_from_bytes ip_payload in
  let '(src_tree', dst_tree') :=
    match ip6, ip4 with
    | Some d, _ =>
        (iptree_add (src_tree r) (ip6_src d) sizeof_u6_addr8,
         iptree_add (dst_tree r) (ip6_dst d) sizeof_u6_addr8)
    | None, Some d =>
        (iptree_add (src_tree r) (ip_src d) sizeof_s_addr,
         iptree_add (dst_tree r) (ip_dst d) sizeof_s_addr)
    | None, None => (src_tree r, dst_tree r)
    end in
  let bandwidth_histogram' := bandwidth_histogram r ++ [(pi, optional_tcp)] in
  let '(src_port_histogram', dst_port_histogram') :=
    match optional_tcp with
    | Some tcp => (src_port_histogram r ++ [tcp], dst_port_histogram r ++ [tcp])
    | None => (src_port_histogram r, dst_port_histogram r)
    end in
  let pfall' := pfall r ++ [pi] in
  {| source_identifier := source_identifier r;
     filename := filename r;
     bounds := bounds r;
     header_font_size := header_font_size r;
     top_list_font_size := top_list_font_size r;
     histogram_show_top_n_text := histogram_show_top_n_text r;
     packet_count := packet_count';
     byte_count := byte_count';
     earliest := earliest';
     latest := latest';
     transport_counts := transport_counts';
     bandwidth_histogram := bandwidth_histogram';
     src_addr_histogram := src_addr_histogram r;
     dst_addr_histogram := dst_addr_histogram r;
     src_port_histogram := src_port_histogram';
     dst_port_histogram := dst_port_histogram';
     pfall := pfall';
     src_tree := src_tree';
     dst_tree := dst_tree' |}.

(** The capture loop: one [ingest_packet] call per packet, in order. *)
Definition ingest_all (r : one_page_report) (ps : list packet_info) : one_page_report :=
  fold_left ingest_packet ps r.

(** What the classification part of [ingest_packet] leaves in its locals
    [has_ip4_dgram], [has_ip6_dgram] and [optional_tcp]. *)
Definition has_ip4_dgram (pi : packet_info) : bool :=
  bool_decide (is_Some (ip4_from_bytes (ip_data pi))).

Definition has_ip6_dgram (pi : packet_info) : bool :=
  negb (has_ip4_dgram pi) && bool_decide (is_Some (ip6_from_bytes (ip_data pi))).
End ingest.

(** The mathematical sum of the tallies of [transport_counts]. *)
Definition transport_sum (m : gmap N N) : N :=
  map_fold (fun _ v acc => v + acc) 0 m.

Definition sum_caplen (ps : list packet_info) : N :=
  fold_right (fun p acc => caplen p + acc) 0 ps.

(** The transport segment [ingest_packet] decodes: from the payload of the
    datagram that decoded, from no bytes at all when none did. *)
Definition optional_tcp `{tcpip} (pi : packet_info) : option tcp_seg :=
  tcp_from_bytes
    match ip4_from_bytes (ip_data pi) with
    | Some d => ip4_payload d
    | None =>
        match ip6_from_bytes (ip_data pi) with
        | Some d => ip6_payload d
        | None => []
        end
    end.

(** A small decoder set for running the model: the version nibble selects
    IPv4 (20-byte header) or IPv6 (40-byte header); a TCP segment needs its
    20-byte header. *)
Definition version_nibble (bs : list byte) : N :=
  match bs with
  | b :: _ => Byte.to_N b / 16
  | [] => 0
  end.

Definition port_at (i : nat) (bs : list byte) : N :=
  Byte.to_N (nth i bs x00) * 256 + Byte.to_N (nth (S i) bs x00).

#[export] Instance sample_tcpip : tcpip := {|
  ip4_from_bytes bs :=
    if (version_nibble bs =? 4) && (20 <=? N.of_nat (length bs))
    then Some (mk_ip4_dgram (take 4 (drop 12 bs)) (take 4 (drop 16 bs)) (drop 20 bs))
    else None;
  ip6_from_bytes bs :=
    if (version_nibble bs =? 6) && (40 <=? N.of_nat (length bs))
    then Some (mk_ip6_dgram (take 16 (drop 8 bs)) (take 16 (drop 24 bs)) (drop 40 bs))
    else None;
  tcp_from_bytes bs :=
    if 20 <=? N.of_nat (length bs)
    then Some (mk_tcp_seg (port_at 0 bs) (port_at 2 bs) (drop 20 bs))
    else None
|}.

(** Sample packets: timestamps only matter for the time range; the bytes
    decode as nothing. *)
Definition sample_packet (sec usec : Z) (len : N) : packet_info :=
  mk_packet_info (mk_timeval sec usec) len 0x0800 [].

(** ** Rendering: constants *)

(** ratio constants *)
Definition page_margin_factor : double := 0.05.
Definition line_space_factor : double := 0.25.
Definition histogram_pad_factor_y : double := 1.0.
Definition address_histogram_width_divisor : double := 2.5.
(** size constants *)
Definition bandwidth_histogram_height : double := 100.0.
Definition address_histogram_height : double := 100.0.

(** [one_page_report::build_size_suffixes] *)
Definition build_size_suffixes : list string :=
  ["B"; "KB"; "MB"; "GB"; "TB"; "PB"; "EB"]%string.

Definition size_suffixes : list string := build_size_suffixes.

(** The ethertypes of <net/ethernet.h>. *)
Definition ETHERTYPE_IP : N := 0x0800.
Definition ETHERTYPE_ARP : N := 0x0806.
Definition ETHERTYPE_IPV6 : N := 0x86dd.

(** [std::vector::at]: [None] stands for the [std::out_of_range] it throws. *)
Definition vector_at {A} (v : list A) (i : N) : option A := v !! N.to_nat i.

(** ** Rendering: collaborators *)

(** The lines the report prints, kept as the format and its arguments
    ([ssprintf] and [comma_number_string] only lay them out). *)
Inductive text :=
| title_version
| fmt_input (source : string)
| fmt_generated (gen_unix : Z)
| fmt_date_range (start stop : Z)
| fmt_packets_analyzed (packets : N) (scaled : double) (suffix : string)
| fmt_transports (ip4 ip6 arp other : double)
| fmt_top_n (rank : nat) (label : string) (count : N) (percentage : Z).

Record cairo_text_extents_t := mk_extents {
  extents_width : double;
  extents_height : double
}.

(** The calls made on the cairo context, in order.  Where the pass hands the
    context to a collaborator's [render], the entry records that call and
    the bounds it was given; it stands for whatever the collaborator then
    draws, which this file does not decide. *)
Inductive cairo_op :=
| cairo_translate (tx ty : double)
| cairo_set_font_size (size : double)
| cairo_set_source_rgb (red green blue : double)
| cairo_move_to (px py : double)
| cairo_show_text (t : text)
| draw_time_histogram (b : plot.bounds_t)
| draw_packetfall (b : plot.bounds_t)
| draw_address_histogram (rel : relationship_t) (b : plot.bounds_t)
| draw_port_histogram (rel : relationship_t) (b : plot.bounds_t).

(** [cairo_text_extents] under the font size in force. *)
Class cairo := {
  cairo_text_extents : double -> text -> cairo_text_extents_t
}.

(** <math.h> *)
Class libm := {
  log : double -> double;
  pow : double -> double -> double
}.

(** Modelled from the spec: the [render] methods of the statistics
    collaborators (time histogram, packetfall, address histogram, port
    histogram), whose code and declarations are in other files.  Each draws
    within the bounds it is given and leaves the height it measured
    queryable; the caller passes its bounds object by reference and reads
    the height back from it, so the result carries the bounds as they stand
    after the call.  [render_iptree] works on the address histogram of the
    report and fills it from the tree; a port histogram's counts come from
    the segments it ingested. *)
Class netviz := {
  time_histogram_render :
    list (packet_info * option tcp_seg) -> plot.bounds_t -> plot.bounds_t;
  packetfall_render : list packet_info -> plot.bounds_t -> plot.bounds_t;
  address_histogram_render_iptree :
    address_histogram -> iptree -> plot.bounds_t -> address_histogram * plot.bounds_t;
  port_histogram_render :
    relationship_t -> list tcp_seg -> plot.bounds_t -> count_histogram * plot.bounds_t
}.

(** The contents of the locals [left_extents] and [right_extents] of
    [render_dual_histograms_top_n] when iteration [ii] declares them: they
    have no initialiser, so they hold whatever the stack holds. *)
Class indeterminate := {
  indeterminate_extents : nat -> cairo_text_extents_t * cairo_text_extents_t
}.

(** ** Rendering: the pass *)

(** [one_page_report::render_pass].  [report] is a reference to the report
    being rendered: what a step does to it is done to the report itself. *)
Record render_pass := mk_render_pass {
  report : one_page_report;
  surface : list cairo_op;
  surface_bounds : plot.bounds_t;
  end_of_content : double
}.

(** Modelled from the spec: the constructor of [render_pass] is declared in
    one_page_report.h; the cursor starts at the top of the padded page. *)
Definition new_render_pass (r : one_page_report) (cr : list cairo_op)
    (b : plot.bounds_t) : render_pass :=
  mk_render_pass r cr b 0.

(** [end_of_content += d] *)
Definition advance (s : render_pass) (d : double) : render_pass :=
  mk_render_pass (report s) (surface s) (surface_bounds s) (end_of_content s + d).

Definition draw (s : render_pass) (ops : list cairo_op) : render_pass :=
  mk_render_pass (report s) (surface s ++ ops) (surface_bounds s) (end_of_content s).

Definition set_transport_counts (r : one_page_report) (m : gmap N N) : one_page_report :=
  {| source_identifier := source_identifier r;
     filename := filename r;
     bounds := bounds r;
     header_font_size := header_font_size r;
     top_list_font_size := top_list_font_size r;
     histogram_show_top_n_text := histogram_show_top_n_text r;
     packet_count := packet_count r;
     byte_count := byte_count r;
     earliest := earliest r;
     latest := latest r;
     transport_counts := m;
     bandwidth_histogram := bandwidth_histogram r;
     src_addr_histogram := src_addr_histogram r;
     dst_addr_histogram := dst_addr_histogram r;
     src_port_histogram := src_port_histogram r;
     dst_port_histogram := dst_port_histogram r;
     pfall := pfall r;
     src_tree := src_tree r;
     dst_tree := dst_tree r |}.

(** The report with its two address histograms replaced: what the
    [render_iptree] calls of [render_address_histograms] do to it. *)
Definition set_addr_histograms (r : one_page_report) (src dst : address_histogram)
    : one_page_report :=
  {| source_identifier := source_identifier r;
     filename := filename r;
     bounds := bounds r;
     header_font_size := header_font_size r;
     top_list_font_size := top_list_font_size r;
     histogram_show_top_n_text := histogram_show_top_n_text r;
     packet_count := packet_count r;
     byte_count := byte_count r;
     earliest := earliest r;
     latest := latest r;
     transport_counts := transport_counts r;
     bandwidth_histogram := bandwidth_histogram r;
     src_addr_histogram := src;
     dst_addr_histogram := dst;
     src_port_histogram := src_port_histogram r;
     dst_port_histogram := dst_port_histogram r;
     pfall := pfall r;
     src_tree := src_tree r;
     dst_tree := dst_tree r |}.

Section render.
Context `{cairo} `{libm} `{netviz} `{indeterminate}.

(** [render_pass::render_text] *)
Definition render_text (s : render_pass) (t : text) (font_size x_offset : double)
    : render_pass * cairo_text_extents_t :=
  let rendered_extents := cairo_text_extents font_size t in
  (draw s [cairo_set_font_size font_size;
           cairo_set_source_rgb 0 0 0;
           cairo_move_to x_offset (end_of_content s + extents_height rendered_extents);
           cairo_show_text t],
   rendered_extents).

(** [render_pass::render_text_line] *)
Definition render_text_line (s : render_pass) (t : text) (font_size line_space : double)
    : render_pass :=
  let '(s, extents) := render_text s t font_size 0 in
  advance s (extents_height extents + line_space).

(** The suffix index of [render_header]:
    [(uint64_t) (log(byte_count) / log(1000))], reset to 0 when it is not an
    index of [size_suffixes]. *)
Definition size_log_1000 (byte_count : N) : N :=
  let raw := double_to_uint64 (log (double_of_uint64 byte_count) / log 1000) in
  if N.of_nat (length size_suffixes) <=? raw then 0 else raw.

(** The loop of [render_header] over [transport_counts]. *)
Definition transport_total (m : gmap N N) : N :=
  map_fold (fun _ v acc => wrap64 (acc + v)) 0 m.

(** [transport_counts] after the three keys [render_header] subscripts. *)
Definition header_subscripts (m : gmap N N) : gmap N N :=
  snd (map_subscript
         (snd (map_subscript (snd (map_subscript m ETHERTYPE_IP)) ETHERTYPE_IPV6))
         ETHERTYPE_ARP).

(** [render_pass::render_header]; [gen_unix] is what [time(0)] returns.
    [None] stands for the exception of [size_suffixes.at]. *)
Definition render_header (gen_unix : Z) (s : render_pass) : option render_pass :=
  let font := header_font_size (report s) in
  let title_line_space := (font * line_space_factor)%float in
  let s := render_text_line s title_version font title_line_space in
  let s := render_text_line s (fmt_input (source_identifier (report s))) font
             title_line_space in
  let s := render_text_line s (fmt_generated gen_unix) font title_line_space in
  let s := advance s (title_line_space * 4) in
  let s := render_text_line s
             (fmt_date_range (tv_sec (earliest (report s))) (tv_sec (latest (report s))))
             font title_line_space in
  let index := size_log_1000 (byte_count (report s)) in
  match vector_at size_suffixes index with
  | None => None
  | Some suffix =>
      let s := render_text_line s
                 (fmt_packets_analyzed (packet_count (report s))
                    (double_of_uint64 (byte_count (report s)) /
                     pow 1000 (double_of_uint64 index))
                    suffix)
                 font title_line_space in
      let total := double_of_uint64 (transport_total (transport_counts (report s))) in
      (* report.transport_counts[...]: six subscripts on three keys *)
      let '(ip4, m) := map_subscript (transport_counts (report s)) ETHERTYPE_IP in
      let '(ip6, m) := map_subscript m ETHERTYPE_IPV6 in
      let '(arp, m) := map_subscript m ETHERTYPE_ARP in
      let s := mk_render_pass (set_transport_counts (report s) m) (surface s)
                 (surface_bounds s) (end_of_content s) in
      let s := render_text_line s
                 (fmt_transports
                    (double_of_uint64 ip4 / total * 100)
                    (double_of_uint64 ip6 / total * 100)
                    (double_of_uint64 arp / total * 100)
                    ((1 - double_of_uint64 (wrap64 (wrap64 (ip4 + ip6) + arp)) / total)
                     * 100))
                 font title_line_space in
      Some (advance s (title_line_space * 4))
  end.

(** [render_pass::render_bandwidth_histogram] *)
Definition render_bandwidth_histogram (s : render_pass) : render_pass :=
  let bounds := plot.mk_bounds 0 (end_of_content s) (plot.width (surface_bounds s))
                  bandwidth_histogram_height in
  let bounds' := time_histogram_render (bandwidth_histogram (report s)) bounds in
  let s := draw s [draw_time_histogram bounds] in
  advance s (plot.height bounds' * histogram_pad_factor_y).

(** [render_pass::render_packetfall] *)
Definition render_packetfall (s : render_pass) : render_pass :=
  let bounds := plot.mk_bounds 0 (end_of_content s) (plot.width (surface_bounds s))
                  bandwidth_histogram_height in
  let bounds' := packetfall_render (pfall (report s)) bounds in
  let s := draw s [draw_packetfall bounds] in
  advance s (plot.height bounds' * histogram_pad_factor_y).

(** [render_pass::render_map] *)
Definition render_map (s : render_pass) : render_pass := s.

(** The percentage of [render_dual_histograms_top_n]:
    [(uint8_t) (((double) count / (double) sum) * 100.0)], or 0 when the sum
    is 0. *)
Definition percentage (count sum : N) : Z :=
  if 0 <? sum
  then double_to_uint8 (double_of_uint64 count / double_of_uint64 sum * 100)
  else 0%Z.

Definition top_n_text (ii : nat) (entry : count_pair) (sum : N) : text :=
  fmt_top_n (ii + 1) (fst entry) (snd entry) (percentage (snd entry) sum).

(** One iteration of the loop of [render_dual_histograms_top_n].  Both
    [render_text] calls are given [left_extents]; nothing writes
    [right_extents]. *)
Definition top_n_row (left_list right_list : list count_pair) (left_sum right_sum : N)
    (left_hist_bounds right_hist_bounds : plot.bounds_t)
    (s : render_pass) (ii : nat) : render_pass :=
  let '(left_extents, right_extents) := indeterminate_extents ii in
  let '(s, left_extents) :=
    match left_list !! ii with
    | Some entry =>
        render_text s (top_n_text ii entry left_sum)
          (top_list_font_size (report s)) (plot.x left_hist_bounds)
    | None => (s, left_extents)
    end in
  let '(s, left_extents) :=
    match right_list !! ii with
    | Some entry =>
        render_text s (top_n_text ii entry right_sum)
          (top_list_font_size (report s)) (plot.x right_hist_bounds)
    | None => (s, left_extents)
    end in
  advance s (std_max (extents_height left_extents) (extents_height right_extents) * 1.5).

(** The height that iteration [ii] multiplies by 1.5: the larger of what
    [left_extents] and [right_extents] hold when the iteration reaches
    [end_of_content += max(left_extents.height, right_extents.height) * 1.5]. *)
Definition row_height (left_list right_list : list count_pair) (left_sum right_sum : N)
    (font_size : double) (ii : nat) : double :=
  let '(left_extents, right_extents) := indeterminate_extents ii in
  let left_extents :=
    match left_list !! ii with
    | Some entry => cairo_text_extents font_size (top_n_text ii entry left_sum)
    | None => left_extents
    end in
  let left_extents :=
    match right_list !! ii with
    | Some entry => cairo_text_extents font_size (top_n_text ii entry right_sum)
    | None => left_extents
    end in
  std_max (extents_height left_extents) (extents_height right_extents).

(** [render_pass::render_dual_histograms_top_n] *)
Definition render_dual_histograms_top_n (s : render_pass)
    (left_list right_list : list count_pair) (left_sum right_sum : N)
    (left_hist_bounds right_hist_bounds : plot.bounds_t) : render_pass :=
  let s := fold_left
             (top_n_row left_list right_list left_sum right_sum
                left_hist_bounds right_hist_bounds)
             (seq 0 (histogram_show_top_n_text (report s))) s in
  advance s (std_max (plot.height left_hist_bounds) (plot.height right_hist_bounds)
             * (histogram_pad_factor_y - 1.0)).

(** [render_pass::render_address_histograms].  The two [render_iptree]
    calls work on the histograms of the report; the sums, the cursor and the
    lists are read after them. *)
Definition render_address_histograms (s : render_pass) : render_pass :=
  let width := (plot.width (surface_bounds s) / address_histogram_width_divisor)%float in
  let left_bounds := plot.mk_bounds 0 (end_of_content s) width address_histogram_height in
  let left_rendered :=
    address_histogram_render_iptree (src_addr_histogram (report s))
      (src_tree (report s)) left_bounds in
  let left_sum := get_count_sum (parent_count_histogram (fst left_rendered)) in
  let right_bounds :=
    plot.mk_bounds (plot.width (surface_bounds s) - width) (end_of_content s) width
      address_histogram_height in
  let right_rendered :=
    address_histogram_render_iptree (dst_addr_histogram (report s))
      (dst_tree (report s)) right_bounds in
  let right_sum := get_count_sum (parent_count_histogram (fst right_rendered)) in
  let s :=
    mk_render_pass
      (set_addr_histograms (report s) (fst left_rendered) (fst right_rendered))
      (surface s ++ [draw_address_histogram SOURCE left_bounds;
                     draw_address_histogram DESTINATION right_bounds])
      (surface_bounds s)
      (end_of_content s +
       std_max (plot.height (snd left_rendered)) (plot.height (snd right_rendered))) in
  let left_list := get_top_list (parent_count_histogram (src_addr_histogram (report s))) in
  let right_list := get_top_list (parent_count_histogram (dst_addr_histogram (report s))) in
  render_dual_histograms_top_n s left_list right_list left_sum right_sum
    (snd left_rendered) (snd right_rendered).

(** [render_pass::render_port_histograms] *)
Definition render_port_histograms (s : render_pass) : render_pass :=
  let width := (plot.width (surface_bounds s) / address_histogram_width_divisor)%float in
  let left_bounds := plot.mk_bounds 0 (end_of_content s) width address_histogram_height in
  let left_rendered :=
    port_histogram_render SOURCE (src_port_histogram (report s)) left_bounds in
  let left_sum := get_count_sum (fst left_rendered) in
  let right_bounds :=
    plot.mk_bounds (plot.width (surface_bounds s) - width) (end_of_content s) width
      address_histogram_height in
  let right_rendered :=
    port_histogram_render DESTINATION (dst_port_histogram (report s)) right_bounds in
  let right_sum := get_count_sum (fst right_rendered) in
  let s := draw s [draw_port_histogram SOURCE left_bounds;
                   draw_port_histogram DESTINATION right_bounds] in
  let s := advance s (std_max (plot.height (snd left_rendered))
                        (plot.height (snd right_rendered))) in
  let left_list := get_top_list (fst left_rendered) in
  let right_list := get_top_list (fst right_rendered) in
  render_dual_histograms_top_n s left_list right_list left_sum right_sum
    (snd left_rendered) (snd right_rendered).

(** [one_page_report::render].  [cairo_pdf_available] says whether the file
    was compiled with CAIRO_PDF_AVAILABLE.  The result is the report after
    the call, and the name and the drawing of the PDF when one is written;
    [None] when an exception escapes. *)
Definition render (cairo_pdf_available : bool) (outdir : string) (gen_unix : Z)
    (r : one_page_report)
    : option (one_page_report * option (string * list cairo_op)) :=
  if cairo_pdf_available then
    let fname := (outdir ++ "/" ++ filename r)%string in
    let pad_size := (plot.width (bounds r) * page_margin_factor)%float in
    let pad_bounds :=
      plot.mk_bounds (plot.x (bounds r) + pad_size) (plot.y (bounds r) + pad_size)
        (plot.width (bounds r) - pad_size * 2) (plot.height (bounds r) - pad_size * 2) in
    let cr := [cairo_translate (plot.x pad_bounds) (plot.y pad_bounds)] in
    let pass := new_render_pass r cr pad_bounds in
    match render_header gen_unix pass with
    | None => None
    | Some pass =>
        let pass := render_bandwidth_histogram pass in
        let pass := render_map pass in
        let pass := render_packetfall pass in
        let pass := render_address_histograms pass in
        let pass := render_port_histograms pass in
        Some (report pass, Some (fname, surface pass))
    end
  else Some (r, None).

End render.

(** An IPv4 datagram (20-byte header, protocol 6) carrying a TCP header, from
    10.0.0.[host] port 1024 to 10.0.0.1 port 80, stamped [sec] seconds. *)
Definition sample_ip4_tcp_packet (sec : Z) (host : byte) : packet_info :=
  mk_packet_info (mk_timeval sec 0) 40 0x0800
    ([x45; x00; x00; x28; x00; x00; x00; x00; x40; x06; x00; x00;
      x0a; x00; x00; host; x0a; x00; x00; x01] ++
     [x04; x00; x00; x50] ++ repeat x00 16).

(** ** Sample collaborators, for running the model *)

(** Text is as high as three quarters of the font size; a top-list line
    whose label is "tall" is one and a quarter of it. *)
#[export] Instance sample_cairo : cairo := {|
  cairo_text_extents font_size t :=
    match t with
    | fmt_top_n _ "tall" _ _ => mk_extents (font_size * 10) (font_size * 1.25)
    | _ => mk_extents (font_size * 10) (font_size * 0.75)
    end
|}.

(** [log] at the arguments the samples use, as glibc computes it; [pow] for
    whole exponents. *)
#[export] Instance sample_libm : libm := {|
  log v :=
    if (v =? 0)%float then neg_infinity
    else if (v =? 1000)%float then 6.907755278982137%float
    else if (v =? 1500)%float then 7.313220387090301%float
    else if (v =? 1000000)%float then 13.815510557964274%float
    else nan;
  pow b e :=
    match double_trunc e with
    | Some n => Nat.iter (Z.to_nat n) (fun acc => (acc * b)%float) 1%float
    | None => nan
    end
|}.

(** Plots that keep the height they are given, except the address
    histograms, which measure 80 units for the source and 65 for the
    destination; every histogram ranks the single entry "all". *)
#[export] Instance sample_netviz : netviz := {|
  time_histogram_render _ b := b;
  packetfall_render _ b := b;
  address_histogram_render_iptree h tree b :=
    (mk_address_histogram (relationship h) (title h)
       (mk_count_histogram (N.of_nat (length tree))
          [("all"%string, N.of_nat (length tree))]),
     plot.mk_bounds (plot.x b) (plot.y b) (plot.width b)
       match relationship h with SOURCE => 80%float | DESTINATION => 65%float end);
  port_histogram_render rel segs b :=
    (mk_count_histogram (N.of_nat (length segs))
       [("all"%string, N.of_nat (length segs))], b)
|}.

(** A stack of zeroes. *)
#[export] Instance sample_indeterminate : indeterminate := {|
  indeterminate_extents _ := (mk_extents 0 0, mk_extents 0 0)
|}.

(** A pass over a blank page, for running single steps. *)
Definition sample_pass : render_pass :=
  new_render_pass new_one_page_report [] (plot.mk_bounds 0 0 550 730).

(** ** Views of a capture, for stating what ingestion accumulates *)

(** The number of packets of [ps] tagged [k]. *)
Definition tag_count (k : N) (ps : list packet_info) : N :=
  N.of_nat (length (filter (fun p => ether_type p = k) ps)).

(** The [add] call a packet causes on the source tree and on the
    destination tree, if any: the 4-byte IPv4 address when IPv4 decodes,
    else the 16-byte IPv6 address when IPv6 decodes. *)
Definition src_tree_entry `{tcpip} (pi : packet_info) : option (list byte * N) :=
  match ip4_from_bytes (ip_data pi) with
  | Some d => Some (ip_src d, sizeof_s_addr)
  | None =>
      match ip6_from_bytes (ip_data pi) with
      | Some d => Some (ip6_src d, sizeof_u6_addr8)
      | None => None
      end
  end.

Definition dst_tree_entry `{tcpip} (pi : packet_info) : option (list byte * N) :=
  match ip4_from_bytes (ip_data pi) with
  | Some d => Some (ip_dst d, sizeof_s_addr)
  | None =>
      match ip6_from_bytes (ip_data pi) with
      | Some d => Some (ip6_dst d, sizeof_u6_addr8)
      | None => None
      end
  end.

(** The timestamp [earliest] ends up with after the packets [ps], starting
    from stored seconds of 0: that of the first packet whose seconds are not
    0, else that of the last packet, else [dflt]. *)
Definition earliest_of (dflt : timeval) (ps : list packet_info) : timeval :=
  match List.find (fun p => negb (tv_sec (ts p) =? 0)%Z) ps with
  | Some p => ts p
  | None =>
      match last ps with
      | Some p => ts p
      | None => dflt
      end
  end.

(** The texts a drawing shows, in order. *)
Definition shown_texts (ops : list cairo_op) : list text :=
  omap (fun op => match op with cairo_show_text t => Some t | _ => None end) ops.

(** The top-list lines of row [ii]: the left one, then the right one, each
    only if its list reaches the row. *)
Definition top_n_row_texts (left_list right_list : list count_pair)
    (left_sum right_sum : N) (ii : nat) : list text :=
  option_list ((fun entry => top_n_text ii entry left_sum) <$> left_list !! ii) ++
  option_list ((fun entry => top_n_text ii entry right_sum) <$> right_list !! ii).

(** The percentage as the specification words it: the entry's count divided
    by the total, times 100, truncated, in exact arithmetic; 0 when the total
    is 0. *)
Definition exact_percentage (count total : N) : Z :=
  if total =? 0 then 0%Z else Z.of_N (count * 100 / total).

(** Whether [percentage] is the exact percentage or one below it. *)
Definition percentage_within_one (count total : N) : bool :=
  ((exact_percentage count total - 1 <=? percentage count total) &&
   (percentage count total <=? exact_percentage count total))%Z.

(** [percentage_within_one] for every total from 1 to [bound] and every
    count up to the total. *)
Definition percentage_checked (bound : nat) : bool :=
  forallb
    (fun total =>
       forallb (fun count => percentage_within_one (N.of_nat count) (N.of_nat total))
         (seq 0 (S total)))
    (seq 1 bound).

(** The blocks of a drawing, in order: the texts shown and the plots drawn,
    without the settings and moves between them.  A plot entry stands for
    all that the collaborator draws within its bounds. *)
Definition is_block (op : cairo_op) : bool :=
  match op with
  | cairo_show_text _ | draw_time_histogram _ | draw_packetfall _
  | draw_address_histogram _ _ | draw_port_histogram _ _ => true
  | _ => false
  end.

Definition drawn_blocks (ops : list cairo_op) : list cairo_op :=
  List.filter is_block ops.

(* ================================================================== *)
(** * Properties *)

Section ingest_properties.
Context `{tcpip}.

Lemma ingest_packet_earliest r pi :
  earliest (ingest_packet r pi) =
  if (tv_sec (earliest r) =? 0)%Z then ts pi else earliest r.
Proof. unfold ingest_packet. repeat case_match; reflexivity. Qed.

Lemma ingest_packet_latest r pi :
  latest (ingest_packet r pi) =
  if ((tv_sec (latest r) <? tv_sec (ts pi)) &&
      (tv_usec (latest r) <? tv_usec (ts pi)))%Z
  then ts pi else latest r.
Proof. unfold ingest_packet. repeat case_match; reflexivity. Qed.

Lemma ingest_packet_packet_count r pi :
  packet_count (ingest_packet r pi) = wrap64 (packet_count r + 1).
Proof. unfold ingest_packet. repeat case_match; reflexivity. Qed.

Lemma ingest_packet_byte_count r pi :
  byte_count (ingest_packet r pi) = wrap64 (byte_count r + caplen pi).
Proof. unfold ingest_packet. repeat case_match; reflexivity. Qed.

Lemma ingest_packet_transport_counts r pi :
  transport_counts (ingest_packet r pi) =
  <[ether_type pi :=
      wrap64 (default 0 (transport_counts r !! ether_type pi) + 1)]>
    (transport_counts r).
Proof.
  unfold ingest_packet, map_subscript.
  destruct (transport_counts r !! ether_type pi) eqn:E;
    repeat case_match; simpl; rewrite ?insert_insert_eq; reflexivity.
Qed.

(** C1: an ingestion call replaces [latest] by the packet's timestamp exactly
    when both the seconds and the sub-seconds of the packet are strictly
    greater than the stored ones, and leaves it alone otherwise; so a packet
    whose seconds increase while its sub-seconds do not leaves [latest]
    unchanged. *)
Theorem ingest_packet_latest_conjunction (r : one_page_report) (pi : packet_info) :
  latest (ingest_packet r pi) =
    (if bool_decide (tv_sec (latest r) < tv_sec (ts pi) /\
                     tv_usec (latest r) < tv_usec (ts pi))%Z
     then ts pi else latest r)
  /\ ((tv_sec (latest r) < tv_sec (ts pi))%Z ->
      (tv_usec (ts pi) <= tv_usec (latest r))%Z ->
      latest (ingest_packet r pi) = latest r).
Proof.
  rewrite ingest_packet_latest. split.
  - case_bool_decide as Hc.
    + destruct Hc as [Hs Hu].
      apply Z.ltb_lt in Hs, Hu. rewrite Hs, Hu. reflexivity.
    + destruct (Z.ltb_spec (tv_sec (latest r)) (tv_sec (ts pi)));
        destruct (Z.ltb_spec (tv_usec (latest r)) (tv_usec (ts pi)));
        simpl; try reflexivity.
      exfalso. apply Hc. split; assumption.
  - intros _ Hu. apply Z.ltb_ge in Hu. rewrite Hu, andb_false_r. reflexivity.
Qed.

End ingest_properties.

(** ** The tallies of [transport_counts] *)

Lemma transport_sum_empty : transport_sum ∅ = 0.
Proof. unfold transport_sum. apply map_fold_empty. Qed.

Lemma transport_sum_insert_fresh (m : gmap N N) k v :
  m !! k = None -> transport_sum (<[k := v]> m) = v + transport_sum m.
Proof.
  intros Hk. unfold transport_sum.
  rewrite map_fold_insert_L; [reflexivity | intros; lia | assumption].
Qed.

Lemma transport_sum_delete (m : gmap N N) k v :
  m !! k = Some v -> transport_sum m = v + transport_sum (delete k m).
Proof.
  intros Hk. unfold transport_sum.
  erewrite map_fold_delete_L; [reflexivity | intros; lia | eassumption].
Qed.

(** Overwriting one tally changes the sum by the difference. *)
Lemma transport_sum_insert (m : gmap N N) k v :
  transport_sum (<[k := v]> m) + default 0 (m !! k) = transport_sum m + v.
Proof.
  destruct (m !! k) as [old|] eqn:Hk; simpl.
  - rewrite (transport_sum_delete m k old Hk).
    rewrite <- (insert_delete_eq m k v).
    rewrite transport_sum_insert_fresh by apply lookup_delete_eq. lia.
  - rewrite transport_sum_insert_fresh by assumption. lia.
Qed.

Lemma transport_sum_lookup_le (m : gmap N N) k :
  default 0 (m !! k) <= transport_sum m.
Proof.
  destruct (m !! k) as [old|] eqn:Hk; simpl; [|lia].
  rewrite (transport_sum_delete m k old Hk). lia.
Qed.

Section ingest_sequences.
Context `{tcpip}.

Lemma ingest_all_cons r pi ps :
  ingest_all r (pi :: ps) = ingest_all (ingest_packet r pi) ps.
Proof. reflexivity. Qed.

Lemma wrap64_small n : n < 2 ^ 64 -> wrap64 n = n.
Proof. apply N.mod_small. Qed.

(** As long as no counter reaches 2^64, a run of ingestion calls adds the
    number of calls to [packet_count] and to the sum of the tallies, and the
    captured lengths to [byte_count]. *)
Lemma ingest_all_counters_from ps : forall r,
  packet_count r + N.of_nat (length ps) < 2 ^ 64 ->
  byte_count r + sum_caplen ps < 2 ^ 64 ->
  transport_sum (transport_counts r) + N.of_nat (length ps) < 2 ^ 64 ->
  packet_count (ingest_all r ps) = packet_count r + N.of_nat (length ps) /\
  byte_count (ingest_all r ps) = byte_count r + sum_caplen ps /\
  transport_sum (transport_counts (ingest_all r ps)) =
    transport_sum (transport_counts r) + N.of_nat (length ps).
Proof.
  induction ps as [|pi ps IH]; intros r Hp Hb Ht.
  - simpl. rewrite !N.add_0_r. auto.
  - rewrite ingest_all_cons.
    cbn [length sum_caplen fold_right] in *.
    fold (sum_caplen ps) in *.
    rewrite Nat2N.inj_succ in *.
    pose proof (transport_sum_lookup_le (transport_counts r) (ether_type pi)) as Hle.
    pose proof (transport_sum_insert (transport_counts r) (ether_type pi)
                  (default 0 (transport_counts r !! ether_type pi) + 1)) as Hins.
    assert (Hpc : packet_count (ingest_packet r pi) = packet_count r + 1).
    { rewrite ingest_packet_packet_count. apply wrap64_small. lia. }
    assert (Hbc : byte_count (ingest_packet r pi) = byte_count r + caplen pi).
    { rewrite ingest_packet_byte_count. apply wrap64_small. lia. }
    assert (Htc : transport_sum (transport_counts (ingest_packet r pi)) =
                  transport_sum (transport_counts r) + 1).
    { rewrite ingest_packet_transport_counts, wrap64_small by lia. lia. }
    destruct (IH (ingest_packet r pi)) as (IHp & IHb & IHt); [lia..|].
    rewrite IHp, IHb, IHt, Hpc, Hbc, Htc. lia.
Qed.

(** C2: starting from a freshly constructed report, after any sequence of
    ingestion calls that keeps the 64-bit counters in range,
    [packet_count] is the number of calls, [byte_count] is the sum of the
    captured lengths, and the tallies of [transport_counts] sum to
    [packet_count]; each call adds one to the tally of the packet's tag and
    touches no other tally. *)
Theorem ingest_all_counters (ps : list packet_info) :
  N.of_nat (length ps) < 2 ^ 64 ->
  sum_caplen ps < 2 ^ 64 ->
  let r := ingest_all new_one_page_report ps in
  packet_count r = N.of_nat (length ps) /\
  byte_count r = sum_caplen ps /\
  transport_sum (transport_counts r) = packet_count r /\
  (forall r0 pi,
     transport_counts (ingest_packet r0 pi) =
     <[ether_type pi :=
         wrap64 (default 0 (transport_counts r0 !! ether_type pi) + 1)]>
       (transport_counts r0)).
Proof.
  intros Hlen Hsum r.
  pose proof (ingest_all_counters_from ps new_one_page_report) as Hgen.
  cbn [packet_count byte_count transport_counts new_one_page_report] in Hgen.
  rewrite transport_sum_empty, !N.add_0_l in Hgen.
  destruct (Hgen Hlen Hsum Hlen) as (Hp & Hb & Ht). subst r.
  repeat split; try congruence.
  apply ingest_packet_transport_counts.
Qed.

(** ** The time range *)

Lemma ingest_all_earliest_set ps : forall r,
  tv_sec (earliest r) <> 0%Z -> earliest (ingest_all r ps) = earliest r.
Proof.
  induction ps as [|pi ps IH]; intros r Hr; [reflexivity|].
  rewrite ingest_all_cons.
  assert (He : earliest (ingest_packet r pi) = earliest r).
  { rewrite ingest_packet_earliest. apply Z.eqb_neq in Hr. rewrite Hr. reflexivity. }
  rewrite IH; rewrite He; auto.
Qed.

(** C4, as the code has it: [earliest] is taken from a packet whenever the
    stored seconds are still 0.  When the first packet's seconds are not 0,
    [earliest] is that packet's timestamp after any sequence that starts
    with it, whatever the later packets are; and once the stored seconds
    are not 0, no ingestion call changes [earliest]. *)
Theorem ingest_all_earliest_first (pi : packet_info) (ps : list packet_info) :
  tv_sec (ts pi) <> 0%Z ->
  earliest (ingest_all new_one_page_report (pi :: ps)) = ts pi /\
  (forall r qs, tv_sec (earliest r) <> 0%Z ->
     earliest (ingest_all r qs) = earliest r) /\
  (forall r q, earliest (ingest_packet r q) =
     if (tv_sec (earliest r) =? 0)%Z then ts q else earliest r).
Proof.
  intros Hpi. split; [|split].
  - rewrite ingest_all_cons.
    assert (He : earliest (ingest_packet new_one_page_report pi) = ts pi).
    { rewrite ingest_packet_earliest. reflexivity. }
    rewrite ingest_all_earliest_set; rewrite He; auto.
  - intros r qs Hr. apply ingest_all_earliest_set, Hr.
  - apply ingest_packet_earliest.
Qed.

(** C3: the dispatch of [ingest_packet].  With the flags as the function
    sets them (IPv4 is tried first, IPv6 only when IPv4 did not decode):
    an IPv6 datagram adds its 16-byte source and destination addresses to
    the source and destination trees; otherwise an IPv4 datagram adds its
    4-byte addresses; otherwise the trees are left alone.  The bandwidth
    histogram receives the packet with the optional TCP segment and the
    packetfall receives the packet, always; the two port histograms receive
    the TCP segment exactly when one was decoded. *)
Theorem ingest_packet_dispatch (r : one_page_report) (pi : packet_info) :
  let r' := ingest_packet r pi in
  (if has_ip6_dgram pi
   then exists d, ip4_from_bytes (ip_data pi) = None /\
                  ip6_from_bytes (ip_data pi) = Some d /\
                  src_tree r' = src_tree r ++ [(ip6_src d, 16)] /\
                  dst_tree r' = dst_tree r ++ [(ip6_dst d, 16)]
   else if has_ip4_dgram pi
   then exists d, ip4_from_bytes (ip_data pi) = Some d /\
                  src_tree r' = src_tree r ++ [(ip_src d, 4)] /\
                  dst_tree r' = dst_tree r ++ [(ip_dst d, 4)]
   else ip4_from_bytes (ip_data pi) = None /\
        ip6_from_bytes (ip_data pi) = None /\
        src_tree r' = src_tree r /\ dst_tree r' = dst_tree r) /\
  bandwidth_histogram r' = bandwidth_histogram r ++ [(pi, optional_tcp pi)] /\
  pfall r' = pfall r ++ [pi] /\
  match optional_tcp pi with
  | Some tcp => src_port_histogram r' = src_port_histogram r ++ [tcp] /\
                dst_port_histogram r' = dst_port_histogram r ++ [tcp]
  | None => src_port_histogram r' = src_port_histogram r /\
            dst_port_histogram r' = dst_port_histogram r
  end.
Proof.
  unfold has_ip6_dgram, has_ip4_dgram, optional_tcp, ingest_packet,
    iptree_add, sizeof_s_addr, sizeof_u6_addr8.
  destruct (ip4_from_bytes (ip_data pi)) as [d4|] eqn:E4;
    [|destruct (ip6_from_bytes (ip_data pi)) as [d6|] eqn:E6].
  - rewrite bool_decide_eq_true_2 by eauto. cbn [negb andb].
    destruct (map_subscript _ _);
      destruct (tcp_from_bytes (ip4_payload d4)); simpl; eauto 10.
  - rewrite bool_decide_eq_false_2 by (intros [? ?]; discriminate).
    rewrite bool_decide_eq_true_2 by eauto. cbn [negb andb].
    destruct (map_subscript _ _);
      destruct (tcp_from_bytes (ip6_payload d6)); simpl; eauto 10.
  - rewrite !bool_decide_eq_false_2 by (intros [? ?]; discriminate).
    cbn [negb andb].
    destruct (map_subscript _ _);
      destruct (tcp_from_bytes []); simpl; eauto 10.
Qed.

End ingest_sequences.

(** ** Number conversions *)

(** In range, [(uint8_t) x] is the value of [x] with its fraction dropped:
    [Z.quot] rounds toward zero. *)
Lemma double_to_uint8_quot (v : double) (s : bool) (m : positive) (e : Z) :
  Prim2SF v = S754_finite s m e ->
  let num := (if s then Z.neg m else Z.pos m) in
  let z := (if (0 <=? e)%Z then num * 2 ^ e else Z.quot num (2 ^ (- e)))%Z in
  (0 <= z < 256)%Z ->
  double_to_uint8 v = z.
Proof.
  intros Hv num z Hz.
  unfold double_to_uint8, cvttsd2si, double_trunc. rewrite Hv.
  fold num. fold z.
  replace ((- 2 ^ (32 - 1) <=? z)%Z && (z <? 2 ^ (32 - 1))%Z) with true.
  - apply Z.mod_small. lia.
  - symmetry. apply andb_true_iff. split; [apply Z.leb_le | apply Z.ltb_lt]; lia.
Qed.

Lemma double_to_uint8_range (v : double) : (0 <= double_to_uint8 v < 256)%Z.
Proof. unfold double_to_uint8. apply Z.mod_pos_bound. lia. Qed.

(** In range, [(uint64_t) x] of a positive [x] is its floor. *)
Lemma double_to_uint64_floor (v : double) (m : positive) (e : Z) :
  Prim2SF v = S754_finite false m e ->
  (double_of_uint64 (2 ^ 63) <=? v)%float = false ->
  let z := (if (0 <=? e)%Z then Z.pos m * 2 ^ e else Z.pos m / 2 ^ (- e))%Z in
  (z < 2 ^ 63)%Z ->
  Z.of_N (double_to_uint64 v) = z.
Proof.
  intros Hv Hlt z Hz.
  assert (Hz0 : (0 <= z)%Z).
  { subst z. destruct (0 <=? e)%Z eqn:He.
    - apply Z.leb_le in He. apply Z.mul_nonneg_nonneg; [lia|].
      apply Z.pow_nonneg. lia.
    - apply Z.leb_gt in He. apply Z.div_pos; [lia|].
      apply Z.pow_pos_nonneg; lia. }
  unfold double_to_uint64. rewrite Hlt.
  unfold cvttsd2si, double_trunc. rewrite Hv.
  assert (Hq : (if (0 <=? e)%Z then Z.pos m * 2 ^ e
                else Z.quot (Z.pos m) (2 ^ (- e)))%Z = z).
  { subst z. destruct (0 <=? e)%Z eqn:He; [reflexivity|].
    apply Z.leb_gt in He. apply Z.quot_div_nonneg; [lia|].
    apply Z.pow_pos_nonneg; lia. }
  rewrite Hq.
  replace ((- 2 ^ (64 - 1) <=? z)%Z && (z <? 2 ^ (64 - 1))%Z) with true.
  - rewrite Z.mod_small by lia. apply Z2N.id. exact Hz0.
  - symmetry. apply andb_true_iff. split; [apply Z.leb_le | apply Z.ltb_lt]; lia.
Qed.

(** Dividing minus infinity gives an infinity or NaN, whatever the divisor. *)
Lemma neg_infinity_div (d : double) :
  (neg_infinity / d)%float = neg_infinity \/
  (neg_infinity / d)%float = infinity \/
  (neg_infinity / d)%float = nan.
Proof.
  pose proof (FloatAxioms.div_spec neg_infinity d) as Hd.
  rewrite <- (FloatAxioms.SF2Prim_Prim2SF (neg_infinity / d)), Hd.
  change (Prim2SF neg_infinity) with (S754_infinity true).
  destruct (Prim2SF d) as [[]| [] | | [] ? ?]; cbn; auto.
Qed.

Lemma double_to_uint64_neg_infinity_div (d : double) :
  double_to_uint64 (neg_infinity / d) = 0 \/
  double_to_uint64 (neg_infinity / d) = 2 ^ 63.
Proof.
  destruct (neg_infinity_div d) as [-> | [-> | ->]]; vm_compute; auto.
Qed.

(** ** The order of doubles *)

Lemma SFcompare_antisym (x y : spec_float) :
  SFcompare y x = option_map CompOpp (SFcompare x y).
Proof.
  destruct x as [sx|sx| |sx mx ex], y as [sy|sy| |sy my ey]; cbn;
    try reflexivity;
    try (destruct sx; reflexivity); try (destruct sy; reflexivity);
    try (destruct sx, sy; reflexivity).
  pose proof (Pos.compare_cont_antisym mx my Eq) as Hm. cbn [CompOpp] in Hm.
  destruct sx, sy; cbn; try reflexivity;
    rewrite (Z.compare_antisym ex ey); destruct (ex ?= ey)%Z; cbn; try reflexivity;
    rewrite <- Hm; destruct (Pos.compare_cont Eq mx my); reflexivity.
Qed.

Lemma SFcompare_refl (x : spec_float) :
  SFeqb x x = true -> SFcompare x x = Some Eq.
Proof.
  unfold SFeqb. destruct (SFcompare x x) as [[]|]; intros; congruence.
Qed.

Lemma SFcompare_total (x y : spec_float) :
  SFeqb x x = true -> SFeqb y y = true -> exists c, SFcompare x y = Some c.
Proof.
  destruct x as [sx|sx| |sx mx ex], y as [sy|sy| |sy my ey]; cbn;
    intros; try discriminate; eauto.
Qed.

(** [std_max] is the larger of its arguments in the IEEE order: one of the
    two, and, when neither is NaN ([x == x]), not below either. *)
Lemma std_max_larger (a b : double) :
  std_max a b = (if (a <? b)%float then b else a) /\
  (std_max a b = a \/ std_max a b = b) /\
  ((a =? a)%float = true -> (b =? b)%float = true ->
   (a <=? std_max a b)%float = true /\ (b <=? std_max a b)%float = true).
Proof.
  unfold std_max. split; [reflexivity|]. split.
  - destruct (a <? b)%float; auto.
  - rewrite !FloatAxioms.eqb_spec. intros Ha Hb.
    pose proof (FloatAxioms.ltb_spec a b) as Hlt.
    destruct (a <? b)%float; rewrite !FloatAxioms.leb_spec; unfold SFltb, SFleb in *.
    + rewrite (SFcompare_refl _ Hb).
      destruct (SFcompare (Prim2SF a) (Prim2SF b)) as [[]|]; try discriminate. auto.
    + rewrite (SFcompare_refl _ Ha), (SFcompare_antisym (Prim2SF a) (Prim2SF b)).
      destruct (SFcompare_total _ _ Ha Hb) as [c Hc]. rewrite Hc in *.
      destruct c; try discriminate; auto.
Qed.

Section render_properties.
Context `{cairo} `{libm} `{netviz} `{indeterminate}.

(** ** The suffix index *)

Lemma size_log_1000_lt (byte_count : N) :
  size_log_1000 byte_count < N.of_nat (length size_suffixes).
Proof.
  unfold size_log_1000.
  destruct (N.leb_spec (N.of_nat (length size_suffixes))
              (double_to_uint64 (log (double_of_uint64 byte_count) / log 1000)));
    [reflexivity | assumption].
Qed.

Lemma size_suffixes_at_index (byte_count : N) :
  is_Some (vector_at size_suffixes (size_log_1000 byte_count)).
Proof.
  unfold vector_at. apply lookup_lt_is_Some.
  pose proof (size_log_1000_lt byte_count). lia.
Qed.

(** C8: the suffix index is [(uint64_t) (log(byte_count) / log(1000))],
    the floor of that quotient when the quotient is positive and in range,
    over the suffixes B, KB, MB, GB, TB, PB, EB; it is reset to 0 whenever
    the computed index is not below the length of the table, and it is 0
    for a byte count of 0 (whose logarithm is minus infinity); so the
    index is always below the length of the table and [size_suffixes.at]
    finds a suffix. *)
Theorem size_log_1000_clamped (byte_count : N) :
  let quotient := (log (double_of_uint64 byte_count) / log 1000)%float in
  let raw := double_to_uint64 quotient in
  size_suffixes = ["B"; "KB"; "MB"; "GB"; "TB"; "PB"; "EB"]%string /\
  size_log_1000 byte_count = (if raw <? 7 then raw else 0) /\
  (forall m e, Prim2SF quotient = S754_finite false m e ->
     (double_of_uint64 (2 ^ 63) <=? quotient)%float = false ->
     let floor := (if (0 <=? e)%Z then Z.pos m * 2 ^ e else Z.pos m / 2 ^ (- e))%Z in
     (floor < 2 ^ 63)%Z -> Z.of_N raw = floor) /\
  size_log_1000 byte_count < N.of_nat (length size_suffixes) /\
  is_Some (vector_at size_suffixes (size_log_1000 byte_count)) /\
  (log 0 = neg_infinity ->
   size_log_1000 0 = 0 /\ vector_at size_suffixes (size_log_1000 0) = Some "B"%string).
Proof.
  intros quotient raw.
  split; [reflexivity|]. split; [|split; [|split; [|split]]].
  - unfold size_log_1000. fold quotient. fold raw.
    change (N.of_nat (length size_suffixes)) with 7.
    destruct (N.leb_spec 7 raw) as [Hge|Hlt].
    + apply N.ltb_ge in Hge. rewrite Hge. reflexivity.
    + apply N.ltb_lt in Hlt. rewrite Hlt. reflexivity.
  - intros m e Hq Hlt. cbv zeta. intros Hfloor.
    apply (double_to_uint64_floor _ m e); assumption.
  - apply size_log_1000_lt.
  - apply size_suffixes_at_index.
  - intros Hlog0.
    assert (Hz : size_log_1000 0 = 0).
    { unfold size_log_1000.
      change (double_of_uint64 0) with 0%float. rewrite Hlog0.
      destruct (double_to_uint64_neg_infinity_div (log 1000)) as [-> | ->];
        reflexivity. }
    rewrite Hz. split; reflexivity.
Qed.

(** ** The percentage of a top-list entry *)

Lemma percentage_checked_within_one (bound : nat) (count total : N) :
  percentage_checked bound = true ->
  0 < total <= N.of_nat bound -> count <= total ->
  (exact_percentage count total - 1 <= percentage count total
     <= exact_percentage count total)%Z.
Proof.
  unfold percentage_checked. intros Hall Ht Hc.
  rewrite forallb_forall in Hall.
  assert (Hin : In (N.to_nat total) (seq 1 bound)) by (apply in_seq; lia).
  specialize (Hall _ Hin). rewrite forallb_forall in Hall.
  assert (Hin' : In (N.to_nat count) (seq 0 (S (N.to_nat total)))) by (apply in_seq; lia).
  specialize (Hall _ Hin'). rewrite !N2Nat.id in Hall.
  unfold percentage_within_one in Hall.
  rewrite andb_true_iff, !Z.leb_le in Hall. exact Hall.
Qed.

(** C7: the percentage of an entry is 0 when its side's total is 0, so
    nothing is divided by zero; otherwise it is the double
    [count / total * 100] converted to [uint8_t], which drops the fraction
    (rounds toward zero) of a value between 0 and 255.  What is truncated is
    the rounded double product, not the exact quotient: for every total up
    to 200 and every count up to the total the result is the exact
    percentage [count * 100 / total] truncated, or one below it.  Two of
    three is 66, 199 of 200 is 99, 29 of 100 is 28. *)
Theorem percentage_truncated (count total : N) :
  (total = 0 -> percentage count total = 0%Z) /\
  (0 < total ->
   let product := (double_of_uint64 count / double_of_uint64 total * 100)%float in
   percentage count total = double_to_uint8 product /\
   forall s m e, Prim2SF product = S754_finite s m e ->
     let num := (if s then Z.neg m else Z.pos m) in
     let z := (if (0 <=? e)%Z then num * 2 ^ e else Z.quot num (2 ^ (- e)))%Z in
     (0 <= z < 256)%Z -> percentage count total = z) /\
  (0 <= percentage count total < 256)%Z /\
  (0 < total <= 200 -> count <= total ->
   (exact_percentage count total - 1 <= percentage count total
      <= exact_percentage count total)%Z) /\
  percentage 2 3 = 66%Z /\ percentage 199 200 = 99%Z /\ percentage 7 0 = 0%Z /\
  percentage 29 100 = 28%Z.
Proof.
  split; [|split; [|split; [|split]]].
  - intros ->. reflexivity.
  - intros Hpos product.
    assert (Hp : percentage count total = double_to_uint8 product).
    { unfold percentage. apply N.ltb_lt in Hpos. rewrite Hpos. reflexivity. }
    split; [exact Hp|].
    intros s m e Hv. cbv zeta. intros Hz. rewrite Hp.
    apply (double_to_uint8_quot product s m e); assumption.
  - unfold percentage. destruct (0 <? total); [apply double_to_uint8_range | lia].
  - intros Ht Hc. apply (percentage_checked_within_one 200); [|exact Ht|exact Hc].
    vm_compute. reflexivity.
  - repeat split; vm_compute; reflexivity.
Qed.

(** C7, as first worded: the percentage would be the exact quotient
    [count * 100 / total] truncated.  For 29 of 100 that is 29; the double
    product is 28.999999999999996 and the code shows 28. *)
Lemma percentage_exact_counterexample :
  exact_percentage 29 100 = 29%Z /\
  (double_of_uint64 29 / double_of_uint64 100 * 100)%float = 28.999999999999996%float /\
  percentage 29 100 = 28%Z /\
  percentage 29 100 <> exact_percentage 29 100.
Proof.
  split; [vm_compute; reflexivity|]. split; [vm_compute; reflexivity|].
  split; [vm_compute; reflexivity|]. vm_compute. discriminate.
Qed.

(** ** Steps of the pass: the cursor and the report *)

Lemma render_text_line_end_of_content s t font_size line_space :
  end_of_content (render_text_line s t font_size line_space) =
  (end_of_content s +
   (extents_height (cairo_text_extents font_size t) + line_space))%float.
Proof. reflexivity. Qed.

Lemma render_text_line_report s t font_size line_space :
  report (render_text_line s t font_size line_space) = report s.
Proof. reflexivity. Qed.

Lemma top_n_row_report ll rl ls rs lb rb s ii :
  report (top_n_row ll rl ls rs lb rb s ii) = report s.
Proof.
  unfold top_n_row. destruct (indeterminate_extents ii).
  destruct (ll !! ii); destruct (rl !! ii); reflexivity.
Qed.

Lemma top_n_row_end_of_content ll rl ls rs lb rb s ii :
  end_of_content (top_n_row ll rl ls rs lb rb s ii) =
  (end_of_content s +
   row_height ll rl ls rs (top_list_font_size (report s)) ii * 1.5)%float.
Proof.
  unfold top_n_row, row_height. destruct (indeterminate_extents ii).
  destruct (ll !! ii); destruct (rl !! ii); reflexivity.
Qed.

Lemma top_n_rows ll rl ls rs lb rb iis : forall s,
  report (fold_left (top_n_row ll rl ls rs lb rb) iis s) = report s /\
  end_of_content (fold_left (top_n_row ll rl ls rs lb rb) iis s) =
  fold_left
    (fun cursor ii =>
       (cursor + row_height ll rl ls rs (top_list_font_size (report s)) ii * 1.5)%float)
    iis (end_of_content s).
Proof.
  induction iis as [|ii iis IH]; intros s; [split; reflexivity|].
  cbn [fold_left].
  destruct (IH (top_n_row ll rl ls rs lb rb s ii)) as [IHr IHc].
  rewrite IHr, IHc, top_n_row_report, top_n_row_end_of_content. auto.
Qed.

Lemma render_dual_histograms_top_n_report s ll rl ls rs lb rb :
  report (render_dual_histograms_top_n s ll rl ls rs lb rb) = report s.
Proof. unfold render_dual_histograms_top_n. cbn. apply top_n_rows. Qed.

(** The cursor after the top-N renderer: one row term per row, then the
    adjustment for the taller histogram. *)
Lemma render_dual_histograms_top_n_end_of_content s ll rl ls rs lb rb :
  end_of_content (render_dual_histograms_top_n s ll rl ls rs lb rb) =
  (fold_left
     (fun cursor ii =>
        cursor + row_height ll rl ls rs (top_list_font_size (report s)) ii * 1.5)
     (seq 0 (histogram_show_top_n_text (report s))) (end_of_content s)
   + std_max (plot.height lb) (plot.height rb) * (histogram_pad_factor_y - 1.0))%float.
Proof.
  unfold render_dual_histograms_top_n. cbn [end_of_content advance].
  destruct (top_n_rows ll rl ls rs lb rb
              (seq 0 (histogram_show_top_n_text (report s))) s) as [_ Hc].
  rewrite Hc. reflexivity.
Qed.

End render_properties.

Section render_layout.
Context `{cairo} `{libm} `{netviz} `{indeterminate}.

(** C10: the loop of the top-N renderer runs once for each of the
    [histogram_show_top_n_text] rows (3 unless configured otherwise),
    whatever the lengths of the two lists, and every iteration adds a row
    term (1.5 times what the two extents hold) to the cursor: also an
    iteration in which one side or both have no entry, where the extents
    are what the locals held to begin with. *)
Theorem top_n_rows_every_iteration (s : render_pass)
    (left_list right_list : list count_pair) (left_sum right_sum : N)
    (left_hist_bounds right_hist_bounds : plot.bounds_t) :
  let n := histogram_show_top_n_text (report s) in
  let font := top_list_font_size (report s) in
  let row ii := row_height left_list right_list left_sum right_sum font ii in
  end_of_content
    (render_dual_histograms_top_n s left_list right_list left_sum right_sum
       left_hist_bounds right_hist_bounds) =
    (fold_left (fun cursor ii => cursor + row ii * 1.5) (seq 0 n) (end_of_content s)
     + std_max (plot.height left_hist_bounds) (plot.height right_hist_bounds)
       * (histogram_pad_factor_y - 1.0))%float /\
  length (seq 0 n) = n /\
  histogram_show_top_n_text new_one_page_report = 3%nat /\
  (forall s' ii,
     end_of_content
       (top_n_row left_list right_list left_sum right_sum
          left_hist_bounds right_hist_bounds s' ii) =
     (end_of_content s' +
      row_height left_list right_list left_sum right_sum
        (top_list_font_size (report s')) ii * 1.5)%float) /\
  (forall ii, left_list !! ii = None -> right_list !! ii = None ->
     row ii = std_max (extents_height (fst (indeterminate_extents ii)))
                (extents_height (snd (indeterminate_extents ii)))).
Proof.
  intros n font row. split; [|split; [|split; [|split]]].
  - apply render_dual_histograms_top_n_end_of_content.
  - apply length_seq.
  - reflexivity.
  - intros s' ii. apply top_n_row_end_of_content.
  - intros ii Hl Hr. subst row. unfold row_height. cbv beta.
    rewrite Hl, Hr. destruct (indeterminate_extents ii). reflexivity.
Qed.

(** C5: in the address-histogram step and in the port-histogram step, once
    the two histograms are drawn side by side the cursor has advanced by
    the larger of the two heights their bounds hold after rendering (the
    measured heights, by the collaborators' interface): by the right one when
    the left one is less, by the left one otherwise, which when neither is
    NaN is not below either.  The top-N renderer starts from that cursor, and
    the step ends at that cursor plus the row terms plus the adjustment.
    Heights of 80 and 65 advance the cursor by 80. *)
Theorem render_histograms_advance_by_larger (s : render_pass) :
  let width := (plot.width (surface_bounds s) / address_histogram_width_divisor)%float in
  let left_bounds := plot.mk_bounds 0 (end_of_content s) width address_histogram_height in
  let right_bounds :=
    plot.mk_bounds (plot.width (surface_bounds s) - width) (end_of_content s) width
      address_histogram_height in
  let larger (hl hr : double) := if (hl <? hr)%float then hr else hl in
  let rows (lc rc : count_histogram) (cursor : double) :=
    fold_left
      (fun cursor ii =>
         (cursor + row_height (get_top_list lc) (get_top_list rc) (get_count_sum lc)
                     (get_count_sum rc) (top_list_font_size (report s)) ii * 1.5)%float)
      (seq 0 (histogram_show_top_n_text (report s))) cursor in
  (let l := address_histogram_render_iptree (src_addr_histogram (report s))
              (src_tree (report s)) left_bounds in
   let r := address_histogram_render_iptree (dst_addr_histogram (report s))
              (dst_tree (report s)) right_bounds in
   let hl := plot.height (snd l) in
   let hr := plot.height (snd r) in
   let lc := parent_count_histogram (fst l) in
   let rc := parent_count_histogram (fst r) in
   render_address_histograms s =
     render_dual_histograms_top_n
       (mk_render_pass (set_addr_histograms (report s) (fst l) (fst r))
          (surface s ++ [draw_address_histogram SOURCE left_bounds;
                         draw_address_histogram DESTINATION right_bounds])
          (surface_bounds s) (end_of_content s + larger hl hr))
       (get_top_list lc) (get_top_list rc) (get_count_sum lc) (get_count_sum rc)
       (snd l) (snd r) /\
   end_of_content (render_address_histograms s) =
     (rows lc rc (end_of_content s + larger hl hr)
      + larger hl hr * (histogram_pad_factor_y - 1.0))%float) /\
  (let l := port_histogram_render SOURCE (src_port_histogram (report s)) left_bounds in
   let r := port_histogram_render DESTINATION (dst_port_histogram (report s)) right_bounds in
   let hl := plot.height (snd l) in
   let hr := plot.height (snd r) in
   render_port_histograms s =
     render_dual_histograms_top_n
       (mk_render_pass (report s)
          (surface s ++ [draw_port_histogram SOURCE left_bounds;
                         draw_port_histogram DESTINATION right_bounds])
          (surface_bounds s) (end_of_content s + larger hl hr))
       (get_top_list (fst l)) (get_top_list (fst r))
       (get_count_sum (fst l)) (get_count_sum (fst r)) (snd l) (snd r) /\
   end_of_content (render_port_histograms s) =
     (rows (fst l) (fst r) (end_of_content s + larger hl hr)
      + larger hl hr * (histogram_pad_factor_y - 1.0))%float) /\
  (forall hl hr : double,
     (larger hl hr = hl \/ larger hl hr = hr) /\
     ((hl <? hr)%float = true -> larger hl hr = hr) /\
     ((hr <? hl)%float = true -> larger hl hr = hl) /\
     ((hl =? hl)%float = true -> (hr =? hr)%float = true ->
      (hl <=? larger hl hr)%float = true /\ (hr <=? larger hl hr)%float = true)) /\
  larger 80%float 65%float = 80%float /\ larger 65%float 80%float = 80%float.
Proof.
  cbv zeta. split; [|split; [|split; [|split; reflexivity]]].
  - split; [reflexivity|].
    unfold render_address_histograms.
    rewrite render_dual_histograms_top_n_end_of_content. reflexivity.
  - split; [reflexivity|].
    unfold render_port_histograms.
    rewrite render_dual_histograms_top_n_end_of_content. reflexivity.
  - intros hl hr.
    destruct (std_max_larger hl hr) as (Hdef & Hone & Hle). rewrite Hdef in Hone, Hle.
    split; [exact Hone|]. split; [intros ->; reflexivity|]. split; [|exact Hle].
    intros Hrl. destruct (hl <? hr)%float eqn:Hlr; [|reflexivity].
    exfalso. rewrite FloatAxioms.ltb_spec in Hlr, Hrl. unfold SFltb in Hlr, Hrl.
    rewrite (SFcompare_antisym (Prim2SF hl) (Prim2SF hr)) in Hrl.
    destruct (SFcompare (Prim2SF hl) (Prim2SF hr)) as [[]|]; discriminate.
Qed.

(** When both sides have an entry in a row, the height the row uses is that
    of the right-hand text (the second [render_text] overwrites
    [left_extents]) against the unset [right_extents]: the height of the
    left-hand text plays no part. *)
Lemma row_height_both_sides ll rl ls rs font ii l r :
  ll !! ii = Some l -> rl !! ii = Some r ->
  row_height ll rl ls rs font ii =
  std_max (extents_height (cairo_text_extents font (top_n_text ii r rs)))
    (extents_height (snd (indeterminate_extents ii))).
Proof.
  intros Hl Hr. unfold row_height. rewrite Hl, Hr.
  destruct (indeterminate_extents ii). reflexivity.
Qed.

(** ** The report during the pass *)

Lemma render_header_report gen_unix s :
  exists s', render_header gen_unix s = Some s' /\
    report s' = set_transport_counts (report s)
                  (header_subscripts (transport_counts (report s))).
Proof.
  unfold render_header. cbn [report render_text_line render_text advance draw].
  destruct (size_suffixes_at_index (byte_count (report s))) as [suffix Hs].
  rewrite Hs. unfold header_subscripts.
  destruct (map_subscript (transport_counts (report s)) ETHERTYPE_IP) as [v1 m1].
  cbn [snd]. destruct (map_subscript m1 ETHERTYPE_IPV6) as [v2 m2].
  cbn [snd]. destruct (map_subscript m2 ETHERTYPE_ARP) as [v3 m3].
  eexists. split; reflexivity.
Qed.

Lemma render_bandwidth_histogram_report s :
  report (render_bandwidth_histogram s) = report s.
Proof. reflexivity. Qed.

Lemma render_packetfall_report s : report (render_packetfall s) = report s.
Proof. reflexivity. Qed.

(** The address step replaces the two address histograms of the report by
    what [render_iptree] leaves in them, and nothing else. *)
Lemma render_address_histograms_report s :
  exists lb rb,
    report (render_address_histograms s) =
    set_addr_histograms (report s)
      (fst (address_histogram_render_iptree (src_addr_histogram (report s))
              (src_tree (report s)) lb))
      (fst (address_histogram_render_iptree (dst_addr_histogram (report s))
              (dst_tree (report s)) rb)).
Proof.
  unfold render_address_histograms.
  rewrite render_dual_histograms_top_n_report. cbn [report].
  eexists _, _. reflexivity.
Qed.

Lemma render_port_histograms_report s :
  report (render_port_histograms s) = report s.
Proof.
  unfold render_port_histograms.
  rewrite render_dual_histograms_top_n_report. reflexivity.
Qed.

Lemma header_subscripts_lookup (m : gmap N N) (k : N) :
  k = ETHERTYPE_IP \/ k = ETHERTYPE_IPV6 \/ k = ETHERTYPE_ARP ->
  header_subscripts m !! k = Some (default 0 (m !! k)).
Proof.
  unfold header_subscripts, map_subscript, ETHERTYPE_IP, ETHERTYPE_IPV6, ETHERTYPE_ARP.
  intros [-> | [-> | ->]];
    destruct (m !! 2048) eqn:E1; cbn [snd];
    rewrite ?lookup_insert_ne by discriminate;
    destruct (m !! 34525) eqn:E2; cbn [snd];
    rewrite ?lookup_insert_ne by discriminate;
    rewrite ?lookup_insert_eq;
    destruct (m !! 2054) eqn:E3; cbn [snd];
    rewrite ?lookup_insert_eq, ?lookup_insert_ne by discriminate;
    rewrite ?lookup_insert_eq;
    rewrite ?E1, ?E2, ?E3; reflexivity.
Qed.

(** The report after [render], when the PDF backend is compiled in:
    [transport_counts] has gained an entry for each of the IPv4, IPv6 and ARP
    tags it lacked, and the address histograms are what [render_iptree] made
    of them from the trees. *)
Lemma render_report outdir gen_unix r :
  exists out lb rb,
    render true outdir gen_unix r =
    Some (set_addr_histograms
            (set_transport_counts r (header_subscripts (transport_counts r)))
            (fst (address_histogram_render_iptree (src_addr_histogram r) (src_tree r) lb))
            (fst (address_histogram_render_iptree (dst_addr_histogram r) (dst_tree r) rb)),
          out).
Proof.
  unfold render.
  match goal with
  | |- context [render_header gen_unix ?s0] =>
      destruct (render_header_report gen_unix s0) as (s1 & Hs1 & Hr)
  end.
  rewrite Hs1. unfold render_map.
  rewrite render_port_histograms_report.
  destruct (render_address_histograms_report
              (render_packetfall (render_bandwidth_histogram s1))) as (lb & rb & Ha).
  rewrite Ha, render_packetfall_report, render_bandwidth_histogram_report, Hr.
  cbn [report new_render_pass src_addr_histogram dst_addr_histogram src_tree dst_tree
       set_transport_counts].
  eexists _, lb, rb. reflexivity.
Qed.

End render_layout.

(** ** Runs of the model *)

(** The time range after packets stamped (10, 500) and then (20, 100): the
    seconds grew, the sub-seconds did not, and [latest] stayed. *)
Lemma ingest_packet_latest_conjunction_witness :
  let r := ingest_packet new_one_page_report (sample_packet 10 500 60) in
  latest r = mk_timeval 10 500 /\
  latest (ingest_packet r (sample_packet 20 100 60)) = latest r.
Proof.
  cbv zeta. split; [reflexivity|].
  apply (proj2 (ingest_packet_latest_conjunction
                  (ingest_packet new_one_page_report (sample_packet 10 500 60))
                  (sample_packet 20 100 60)));
    [vm_compute; reflexivity | vm_compute; discriminate].
Defined.

Lemma ingest_all_counters_witness :
  let ps := [sample_packet 10 500 60; sample_packet 11 0 1500; sample_packet 12 7 40] in
  let r := ingest_all new_one_page_report ps in
  packet_count r = 3 /\ byte_count r = 1600 /\
  transport_sum (transport_counts r) = packet_count r.
Proof.
  cbv zeta.
  destruct (ingest_all_counters
              [sample_packet 10 500 60; sample_packet 11 0 1500; sample_packet 12 7 40])
    as (Hp & Hb & Ht & _); [cbn; lia | cbn; lia |].
  split; [exact Hp | split; [exact Hb | exact Ht]].
Defined.

Lemma ingest_all_earliest_first_witness :
  earliest (ingest_all new_one_page_report
              [sample_packet 7 0 60; sample_packet 3 9 60; sample_packet 0 1 60]) =
  mk_timeval 7 0.
Proof.
  apply (ingest_all_earliest_first (sample_packet 7 0 60)
           [sample_packet 3 9 60; sample_packet 0 1 60]).
  cbn. lia.
Defined.

(** C4 as stated fails when the first packet is stamped with 0 seconds:
    after packets stamped (0, 5) and (10, 7), [earliest] is the second
    packet's timestamp. *)
Lemma ingest_all_earliest_counterexample :
  earliest (ingest_all new_one_page_report [sample_packet 0 5 60; sample_packet 10 7 60])
    = mk_timeval 10 7 /\
  ts (sample_packet 0 5 60) = mk_timeval 0 5 /\
  earliest (ingest_all new_one_page_report [sample_packet 0 5 60]) = mk_timeval 0 5 /\
  mk_timeval 10 7 <> mk_timeval 0 5.
Proof. repeat split; try reflexivity. discriminate. Qed.

(** Ten IPv4/TCP packets and two packets that are not IP: twelve packets
    counted, ten under the IPv4 tag and two under another, ten addresses in
    each tree and ten segments in each port histogram. *)
Example ingest_all_end_to_end :
  let other sec := mk_packet_info (mk_timeval sec 0) 60 0x88cc [x02; x07] in
  let ps := map (fun i => sample_ip4_tcp_packet (100 + Z.of_nat i) x02) (seq 0 10)
            ++ [other 200%Z; other 201%Z] in
  let r := ingest_all new_one_page_report ps in
  packet_count r = 12 /\ byte_count r = 520 /\
  transport_counts r !! 0x0800 = Some 10 /\ transport_counts r !! 0x88cc = Some 2 /\
  length (src_tree r) = 10%nat /\ length (dst_tree r) = 10%nat /\
  last (src_tree r) = Some ([x0a; x00; x00; x02], 4) /\
  last (dst_tree r) = Some ([x0a; x00; x00; x01], 4) /\
  length (src_port_histogram r) = 10%nat /\ length (bandwidth_histogram r) = 12%nat /\
  earliest r = mk_timeval 100 0.
Proof. cbv zeta. repeat split; vm_compute; reflexivity. Qed.

Lemma size_log_1000_clamped_witness :
  size_log_1000 0 = 0 /\ vector_at size_suffixes (size_log_1000 0) = Some "B"%string.
Proof.
  apply (size_log_1000_clamped 0). reflexivity.
Defined.

(** The byte sizes of the report header with glibc's logarithms: 0 bytes
    are shown in B, 1500 in KB, 1000000 in MB. *)
Example size_log_1000_samples :
  vector_at size_suffixes (size_log_1000 0) = Some "B"%string /\
  vector_at size_suffixes (size_log_1000 1500) = Some "KB"%string /\
  vector_at size_suffixes (size_log_1000 1000000) = Some "MB"%string.
Proof. repeat split; vm_compute; reflexivity. Qed.

(** The percentage is computed in doubles: 29 of 100 is 28.999999999999996
    before the fraction is dropped. *)
Example percentage_29_of_100 :
  (double_of_uint64 29 / double_of_uint64 100 * 100)%float = 28.999999999999996%float /\
  percentage 29 100 = 28%Z.
Proof. split; vm_compute; reflexivity. Qed.

(** C9: a row should advance the cursor by 1.5 times the larger of the two
    sides' measured text heights.  The code run on a row with an entry on
    both sides, text 10 units high on the left and 6 on the right, and a
    zeroed stack: the larger height times 1.5 is 15, the cursor moves by 9,
    because the right-hand [render_text] is handed [left_extents] and
    [right_extents] is never written. *)
Theorem top_n_row_loses_left_height :
  let left_list := [("tall"%string, 29)] in
  let right_list := [("short"%string, 71)] in
  let font := top_list_font_size (report sample_pass) in
  extents_height (cairo_text_extents font (top_n_text 0 ("tall"%string, 29) 100))
    = 10%float /\
  extents_height (cairo_text_extents font (top_n_text 0 ("short"%string, 71) 100))
    = 6%float /\
  (std_max 10 6 * 1.5 = 15)%float /\
  end_of_content sample_pass = 0%float /\
  end_of_content
    (top_n_row left_list right_list 100 100
       (plot.mk_bounds 0 0 220 100) (plot.mk_bounds 330 0 220 100) sample_pass 0)
    = 9%float.
Proof. cbv zeta. repeat split; vm_compute; reflexivity. Qed.

(** C6: the render pass should leave the report as it found it.  The code
    run on a report that ingested one IPv4-tagged packet: the report has no
    ARP and no IPv6 tally before [render]; after it, it has both, of 0,
    inserted by the subscripts of [render_header], and so differs from the
    report before the pass. *)
Theorem render_mutates_transport_counts :
  let r := ingest_all new_one_page_report [sample_packet 5 5 1500] in
  transport_counts r !! ETHERTYPE_ARP = None /\
  exists r' out,
    render true "out" 0 r = Some (r', out) /\
    transport_counts r' !! ETHERTYPE_ARP = Some 0 /\
    transport_counts r' !! ETHERTYPE_IPV6 = Some 0 /\
    transport_counts r' !! ETHERTYPE_IP = Some 1 /\
    r' <> r.
Proof.
  cbv zeta. split; [reflexivity|].
  destruct (render_report "out" 0
              (ingest_all new_one_page_report [sample_packet 5 5 1500]))
    as (out & lb & rb & Hout).
  eexists _, out. split; [exact Hout|].
  repeat split; try (vm_compute; reflexivity).
  intros Heq. apply (f_equal (fun r => transport_counts r !! ETHERTYPE_ARP)) in Heq.
  vm_compute in Heq. discriminate.
Qed.

(** ** More on ingestion *)

Lemma wrap64_add_l a b : wrap64 (wrap64 a + b) = wrap64 (a + b).
Proof. unfold wrap64. apply N.Div0.add_mod_idemp_l. Qed.

Lemma wrap64_add_r a b : wrap64 (a + wrap64 b) = wrap64 (a + b).
Proof. unfold wrap64. apply N.Div0.add_mod_idemp_r. Qed.

Section ingest_more.
Context `{tcpip}.

Lemma ingest_all_counters_wrap ps : forall r,
  packet_count (ingest_all r (ps)) =
    match ps with [] => packet_count r | _ => wrap64 (packet_count r + N.of_nat (length ps)) end /\
  byte_count (ingest_all r ps) =
    match ps with [] => byte_count r | _ => wrap64 (byte_count r + sum_caplen ps) end.
Proof.
  induction ps as [|pi ps IH]; intros r; [split; reflexivity|].
  rewrite ingest_all_cons.
  destruct (IH (ingest_packet r pi)) as [IHp IHb]. rewrite IHp, IHb.
  rewrite ingest_packet_packet_count, ingest_packet_byte_count.
  cbn [length sum_caplen fold_right]. fold (sum_caplen ps).
  rewrite Nat2N.inj_succ.
  destruct ps as [|q ps].
  - cbn. rewrite !N.add_0_r. split; f_equal; lia.
  - rewrite !wrap64_add_l. split; f_equal; lia.
Qed.

(** X1: the counters count modulo 2^64: after any sequence of ingestion
    calls on a fresh report, [packet_count] is the number of calls and
    [byte_count] the sum of the captured lengths, both reduced modulo 2^64. *)
Theorem ingest_all_counters_modulo (ps : list packet_info) :
  let r := ingest_all new_one_page_report ps in
  packet_count r = N.of_nat (length ps) mod 2 ^ 64 /\
  byte_count r = sum_caplen ps mod 2 ^ 64.
Proof.
  cbv zeta.
  destruct (ingest_all_counters_wrap ps new_one_page_report) as [Hp Hb].
  rewrite Hp, Hb. destruct ps; [split; reflexivity|].
  cbn [packet_count byte_count new_one_page_report]. rewrite !N.add_0_l.
  split; reflexivity.
Qed.

Lemma tag_count_cons k p ps :
  tag_count k (p :: ps) =
  (if decide (ether_type p = k) then 1 else 0) + tag_count k ps.
Proof.
  unfold tag_count. rewrite filter_cons.
  destruct (decide (ether_type p = k)); cbn [length]; lia.
Qed.

Lemma ingest_all_transport_counts_lookup ps : forall r k,
  transport_counts (ingest_all r ps) !! k =
  if tag_count k ps =? 0 then transport_counts r !! k
  else Some (wrap64 (default 0 (transport_counts r !! k) + tag_count k ps)).
Proof.
  induction ps as [|pi ps IH]; intros r k; [reflexivity|].
  rewrite ingest_all_cons, IH, ingest_packet_transport_counts, tag_count_cons.
  destruct (decide (ether_type pi = k)) as [->|Hne].
  - rewrite lookup_insert_eq. cbn [default].
    destruct (N.eqb_spec (tag_count k ps) 0) as [->|Hc].
    + rewrite N.add_0_r. reflexivity.
    + destruct (N.eqb_spec (1 + tag_count k ps) 0) as [?|_]; [lia|].
      unfold id. rewrite wrap64_add_l. f_equal. f_equal. lia.
  - rewrite lookup_insert_ne by assumption. rewrite N.add_0_l. reflexivity.
Qed.

(** X2: after any sequence of ingestion calls on a fresh report,
    [transport_counts] has an entry exactly for the tags that occurred, and
    the entry of a tag is the number of packets that carried it, modulo
    2^64. *)
Theorem ingest_all_transport_counts (ps : list packet_info) (k : N) :
  transport_counts (ingest_all new_one_page_report ps) !! k =
  if tag_count k ps =? 0 then None else Some (tag_count k ps mod 2 ^ 64).
Proof.
  rewrite ingest_all_transport_counts_lookup.
  cbn [transport_counts new_one_page_report]. rewrite lookup_empty.
  cbn [default]. rewrite N.add_0_l. reflexivity.
Qed.

Lemma ingest_all_earliest_unset ps : forall r,
  tv_sec (earliest r) = 0%Z ->
  earliest (ingest_all r ps) = earliest_of (earliest r) ps.
Proof.
  induction ps as [|pi ps IH]; intros r Hr; [reflexivity|].
  rewrite ingest_all_cons.
  assert (He : earliest (ingest_packet r pi) = ts pi).
  { rewrite ingest_packet_earliest, Hr. reflexivity. }
  unfold earliest_of. cbn [List.find].
  destruct (Z.eqb_spec (tv_sec (ts pi)) 0) as [Hz|Hnz]; cbn [negb].
  - rewrite IH by (rewrite He; exact Hz). rewrite He. unfold earliest_of.
    destruct (List.find _ ps); [reflexivity|].
    destruct ps as [|q ps]; [reflexivity|].
    change (last (pi :: q :: ps)) with (last (q :: ps)).
    destruct (last (q :: ps)) eqn:El; [reflexivity|].
    apply last_None in El. discriminate.
  - rewrite ingest_all_earliest_set by (rewrite He; exact Hnz). exact He.
Qed.

(** X3: on a fresh report, [earliest] after a sequence of packets is the
    timestamp of the first packet whose seconds are not 0; when every
    packet has 0 seconds it is the timestamp of the last packet; with no
    packet it is still zero. *)
Theorem ingest_all_earliest (ps : list packet_info) :
  earliest (ingest_all new_one_page_report ps) = earliest_of (mk_timeval 0 0) ps.
Proof. apply ingest_all_earliest_unset. reflexivity. Qed.

End ingest_more.

Section ingest_routing.
Context `{tcpip}.

Lemma ingest_packet_pfall r pi : pfall (ingest_packet r pi) = pfall r ++ [pi].
Proof. unfold ingest_packet. repeat case_match; reflexivity. Qed.

Lemma ingest_packet_bandwidth_histogram r pi :
  bandwidth_histogram (ingest_packet r pi) =
  bandwidth_histogram r ++ [(pi, optional_tcp pi)].
Proof.
  unfold ingest_packet, optional_tcp.
  destruct (ip4_from_bytes (ip_data pi)); [|destruct (ip6_from_bytes (ip_data pi))];
    repeat case_match; reflexivity.
Qed.

Lemma ingest_packet_port_histograms r pi :
  src_port_histogram (ingest_packet r pi) =
    src_port_histogram r ++ option_list (optional_tcp pi) /\
  dst_port_histogram (ingest_packet r pi) =
    dst_port_histogram r ++ option_list (optional_tcp pi).
Proof.
  unfold ingest_packet, optional_tcp.
  destruct (ip4_from_bytes (ip_data pi)) as [d4|];
    [|destruct (ip6_from_bytes (ip_data pi)) as [d6|]];
    destruct (map_subscript _ _).
  - destruct (tcp_from_bytes (ip4_payload d4)); cbn; rewrite ?app_nil_r; auto.
  - destruct (tcp_from_bytes (ip6_payload d6)); cbn; rewrite ?app_nil_r; auto.
  - destruct (tcp_from_bytes []); cbn; rewrite ?app_nil_r; auto.
Qed.

Lemma ingest_packet_trees r pi :
  src_tree (ingest_packet r pi) = src_tree r ++ option_list (src_tree_entry pi) /\
  dst_tree (ingest_packet r pi) = dst_tree r ++ option_list (dst_tree_entry pi).
Proof.
  unfold ingest_packet, src_tree_entry, dst_tree_entry, iptree_add.
  destruct (ip4_from_bytes (ip_data pi)) as [d4|];
    [|destruct (ip6_from_bytes (ip_data pi)) as [d6|]];
    destruct (map_subscript _ _); repeat case_match;
    cbn; rewrite ?app_nil_r; auto.
Qed.

Lemma omap_cons_option_list {A B} (f : A -> option B) x l :
  omap f (x :: l) = option_list (f x) ++ omap f l.
Proof. cbn. destruct (f x); reflexivity. Qed.

(** X4: the collaborators receive the packets in capture order: after a
    sequence of ingestion calls the packetfall has received every packet,
    the bandwidth histogram every packet with its optional TCP segment, and
    the two port histograms the same segments, those of the packets in
    which a TCP segment was decoded. *)
Theorem ingest_all_forwarding (r : one_page_report) (ps : list packet_info) :
  pfall (ingest_all r ps) = pfall r ++ ps /\
  bandwidth_histogram (ingest_all r ps) =
    bandwidth_histogram r ++ map (fun pi => (pi, optional_tcp pi)) ps /\
  src_port_histogram (ingest_all r ps) = src_port_histogram r ++ omap optional_tcp ps /\
  dst_port_histogram (ingest_all r ps) = dst_port_histogram r ++ omap optional_tcp ps.
Proof.
  revert r. induction ps as [|pi ps IH]; intros r.
  - cbn. rewrite !app_nil_r. auto.
  - rewrite ingest_all_cons. destruct (IH (ingest_packet r pi)) as (Hp & Hb & Hs & Hd).
    destruct (ingest_packet_port_histograms r pi) as [Hs1 Hd1].
    rewrite Hp, Hb, Hs, Hd, ingest_packet_pfall, ingest_packet_bandwidth_histogram,
      Hs1, Hd1, omap_cons_option_list.
    cbn [map]. rewrite <- !app_assoc. auto.
Qed.

(** X5: the address trees receive, in capture order, one address per packet
    that decodes as IP: the 4-byte IPv4 address when IPv4 decodes, else the
    16-byte IPv6 address.  So the two trees always hold the same number of
    additions, at most one per packet, each of 4 or 16 bytes. *)
Theorem ingest_all_trees (r : one_page_report) (ps : list packet_info) :
  src_tree (ingest_all r ps) = src_tree r ++ omap src_tree_entry ps /\
  dst_tree (ingest_all r ps) = dst_tree r ++ omap dst_tree_entry ps /\
  length (omap src_tree_entry ps) = length (omap dst_tree_entry ps) /\
  (length (omap src_tree_entry ps) <= length ps)%nat /\
  Forall (fun e => snd e = 4 \/ snd e = 16)
    (omap src_tree_entry ps ++ omap dst_tree_entry ps).
Proof.
  split; [|split; [|split; [|split]]].
  - revert r. induction ps as [|pi ps IH]; intros r; [cbn; rewrite app_nil_r; auto|].
    rewrite ingest_all_cons, IH. destruct (ingest_packet_trees r pi) as [-> _].
    rewrite omap_cons_option_list, <- app_assoc. reflexivity.
  - revert r. induction ps as [|pi ps IH]; intros r; [cbn; rewrite app_nil_r; auto|].
    rewrite ingest_all_cons, IH. destruct (ingest_packet_trees r pi) as [_ ->].
    rewrite omap_cons_option_list, <- app_assoc. reflexivity.
  - induction ps as [|pi ps IH]; [reflexivity|].
    rewrite !omap_cons_option_list, !length_app, IH. f_equal.
    unfold src_tree_entry, dst_tree_entry.
    destruct (ip4_from_bytes (ip_data pi)); [reflexivity|].
    destruct (ip6_from_bytes (ip_data pi)); reflexivity.
  - induction ps as [|pi ps IH]; [cbn; lia|].
    rewrite omap_cons_option_list, length_app. cbn [length].
    destruct (src_tree_entry pi); cbn; lia.
  - apply Forall_app. split; apply Forall_forall; intros [addr len] Hin;
      apply list_elem_of_omap in Hin as (pi & _ & Hpi); cbn;
      unfold src_tree_entry, dst_tree_entry in Hpi;
      destruct (ip4_from_bytes (ip_data pi)); [| destruct (ip6_from_bytes (ip_data pi)) | |
        destruct (ip6_from_bytes (ip_data pi))];
      inversion Hpi; auto.
Qed.

(** X6: ingestion never touches the settings of the report: the source
    identifier, the file name, the page bounds, the font sizes and the number
    of top-list rows are after any sequence of calls what they were. *)
Theorem ingest_all_settings (r : one_page_report) (ps : list packet_info) :
  source_identifier (ingest_all r ps) = source_identifier r /\
  filename (ingest_all r ps) = filename r /\
  bounds (ingest_all r ps) = bounds r /\
  header_font_size (ingest_all r ps) = header_font_size r /\
  top_list_font_size (ingest_all r ps) = top_list_font_size r /\
  histogram_show_top_n_text (ingest_all r ps) = histogram_show_top_n_text r.
Proof.
  revert r. induction ps as [|pi ps IH]; intros r; [repeat split|].
  rewrite ingest_all_cons.
  destruct (IH (ingest_packet r pi)) as (H1 & H2 & H3 & H4 & H5 & H6).
  rewrite H1, H2, H3, H4, H5, H6.
  unfold ingest_packet. repeat case_match; repeat split.
Qed.

(** X7: a packet that decodes neither as IPv4 nor as IPv6 is counted and
    nothing more, provided the TCP decoder rejects an empty payload:
    [packet_count] grows by one and [byte_count] by the captured length
    (modulo 2^64), the tally of its tag becomes one more than it was (one
    when the tag had none) and no other tally changes, the bandwidth
    histogram and the packetfall receive it (without a segment), and the
    trees and the port histograms are left alone. *)
Theorem ingest_packet_not_ip (r : one_page_report) (pi : packet_info) :
  ip4_from_bytes (ip_data pi) = None ->
  ip6_from_bytes (ip_data pi) = None ->
  tcp_from_bytes [] = None ->
  let r' := ingest_packet r pi in
  packet_count r' = wrap64 (packet_count r + 1) /\
  byte_count r' = wrap64 (byte_count r + caplen pi) /\
  transport_counts r' !! ether_type pi =
    Some (wrap64 (default 0 (transport_counts r !! ether_type pi) + 1)) /\
  (forall k, k <> ether_type pi ->
     transport_counts r' !! k = transport_counts r !! k) /\
  bandwidth_histogram r' = bandwidth_histogram r ++ [(pi, None)] /\
  pfall r' = pfall r ++ [pi] /\
  src_tree r' = src_tree r /\ dst_tree r' = dst_tree r /\
  src_port_histogram r' = src_port_histogram r /\
  dst_port_histogram r' = dst_port_histogram r.
Proof.
  intros H4 H6 Ht r'. subst r'.
  destruct (ingest_packet_port_histograms r pi) as [Hs Hd].
  destruct (ingest_packet_trees r pi) as [Hst Hdt].
  assert (Hopt : optional_tcp pi = None).
  { unfold optional_tcp. rewrite H4, H6. exact Ht. }
  rewrite Hs, Hd, Hst, Hdt, ingest_packet_bandwidth_histogram, ingest_packet_pfall,
    ingest_packet_packet_count, ingest_packet_byte_count,
    ingest_packet_transport_counts, Hopt.
  unfold src_tree_entry, dst_tree_entry. rewrite H4, H6. cbn [option_list].
  rewrite !app_nil_r, lookup_insert_eq.
  split; [reflexivity|]. split; [reflexivity|]. split; [reflexivity|].
  split; [|repeat split].
  intros k Hk. apply lookup_insert_ne. congruence.
Qed.

End ingest_routing.

(** X8: IPv4 takes precedence: when the bytes decode as IPv4 the IPv6
    decoder is not consulted, so the report after the call is the same
    whatever the IPv6 decoder would have answered. *)
Theorem ingest_packet_ip4_precedence
    (ip4 : list byte -> option ip4_dgram)
    (ip6 ip6' : list byte -> option ip6_dgram)
    (tcp : list byte -> option tcp_seg)
    (r : one_page_report) (pi : packet_info) :
  is_Some (ip4 (ip_data pi)) ->
  @ingest_packet (Build_tcpip ip4 ip6 tcp) r pi =
  @ingest_packet (Build_tcpip ip4 ip6' tcp) r pi.
Proof.
  intros [d Hd]. unfold ingest_packet. cbn [ip4_from_bytes ip6_from_bytes tcp_from_bytes].
  rewrite Hd. reflexivity.
Qed.

Section ingest_time_range.
Context `{tcpip}.

Lemma ingest_packet_latest_cases r pi :
  (latest (ingest_packet r pi) = latest r) \/
  (latest (ingest_packet r pi) = ts pi /\
   (tv_sec (latest r) < tv_sec (ts pi))%Z /\
   (tv_usec (latest r) < tv_usec (ts pi))%Z).
Proof.
  rewrite ingest_packet_latest.
  destruct (Z.ltb_spec (tv_sec (latest r)) (tv_sec (ts pi)));
    destruct (Z.ltb_spec (tv_usec (latest r)) (tv_usec (ts pi))); cbn; auto.
Qed.

(** X9: over any sequence of ingestion calls neither component of [latest]
    ever decreases, and [latest] is either what it was or the timestamp of
    one of the packets, in which case both of its components are strictly
    greater than they were. *)
Theorem ingest_all_latest_monotone (r : one_page_report) (ps : list packet_info) :
  (tv_sec (latest r) <= tv_sec (latest (ingest_all r ps)))%Z /\
  (tv_usec (latest r) <= tv_usec (latest (ingest_all r ps)))%Z /\
  (latest (ingest_all r ps) = latest r \/
   exists pi, pi ∈ ps /\ latest (ingest_all r ps) = ts pi /\
     (tv_sec (latest r) < tv_sec (ts pi))%Z /\
     (tv_usec (latest r) < tv_usec (ts pi))%Z).
Proof.
  revert r. induction ps as [|pi ps IH]; intros r.
  - cbn. split; [lia|split; [lia|auto]].
  - rewrite ingest_all_cons.
    destruct (IH (ingest_packet r pi)) as (Hs & Hu & Hcase).
    destruct (ingest_packet_latest_cases r pi) as [Hsame | (Hnew & Hs1 & Hu1)].
    + rewrite Hsame in Hs, Hu, Hcase. split; [exact Hs|split; [exact Hu|]].
      destruct Hcase as [-> | (q & Hq & Hl & Hqs & Hqu)]; [auto|].
      right. exists q. split; [apply elem_of_cons; auto | auto].
    + rewrite Hnew in Hs, Hu, Hcase. split; [lia|split; [lia|]].
      right. destruct Hcase as [Heq | (q & Hq & Hl & Hqs & Hqu)].
      * exists pi. rewrite Heq. split; [apply elem_of_cons; auto | auto].
      * exists q. split; [apply elem_of_cons; auto|].
        split; [exact Hl | split; lia].
Qed.

(** X10: [latest] stays as it is over a whole sequence in which every
    packet fails one half of the test: its seconds or its sub-seconds are
    not greater than the stored ones.  On a fresh report, packets stamped
    with 0 microseconds never set [latest]. *)
Theorem ingest_all_latest_unchanged (r : one_page_report) (ps : list packet_info) :
  Forall (fun pi => (tv_sec (ts pi) <= tv_sec (latest r))%Z \/
                    (tv_usec (ts pi) <= tv_usec (latest r))%Z) ps ->
  latest (ingest_all r ps) = latest r.
Proof.
  revert r. induction ps as [|pi ps IH]; intros r Hall; [reflexivity|].
  apply Forall_cons in Hall as [Hpi Hps].
  rewrite ingest_all_cons.
  assert (Hsame : latest (ingest_packet r pi) = latest r).
  { destruct (ingest_packet_latest_cases r pi) as [Hsame | (_ & Hs1 & Hu1)];
      [exact Hsame | lia]. }
  rewrite IH; rewrite Hsame; auto.
Qed.

End ingest_time_range.

(** ** The total of the tallies, as [render_header] adds them up *)

Lemma transport_total_comm (j1 j2 z1 z2 y : N) :
  wrap64 (wrap64 (y + z2) + z1) = wrap64 (wrap64 (y + z1) + z2).
Proof. rewrite !wrap64_add_l. f_equal. lia. Qed.

Lemma transport_total_empty : transport_total ∅ = 0.
Proof. unfold transport_total. apply map_fold_empty. Qed.

Lemma transport_total_insert_fresh (m : gmap N N) k v :
  m !! k = None -> transport_total (<[k := v]> m) = wrap64 (transport_total m + v).
Proof.
  intros Hk. unfold transport_total.
  rewrite map_fold_insert_L; [reflexivity | | assumption].
  intros. apply transport_total_comm; assumption.
Qed.

Lemma transport_total_delete (m : gmap N N) k v :
  m !! k = Some v -> transport_total m = wrap64 (transport_total (delete k m) + v).
Proof.
  intros Hk. unfold transport_total.
  erewrite map_fold_delete_L; [reflexivity | | eassumption].
  intros. apply transport_total_comm; assumption.
Qed.

Lemma transport_total_wrapped (m : gmap N N) : transport_total m = wrap64 (transport_total m).
Proof.
  induction m as [|k v m Hk _] using map_ind.
  - rewrite transport_total_empty. reflexivity.
  - rewrite transport_total_insert_fresh by assumption.
    unfold wrap64. rewrite N.Div0.mod_mod. reflexivity.
Qed.

(** Adding one to a tally adds one to the total, modulo 2^64. *)
Lemma transport_total_increment (m : gmap N N) k :
  transport_total (<[k := wrap64 (default 0 (m !! k) + 1)]> m) =
  wrap64 (transport_total m + 1).
Proof.
  destruct (m !! k) as [v|] eqn:Hk; cbn [default from_option]; unfold id.
  - rewrite <- (insert_delete_eq m k).
    rewrite transport_total_insert_fresh by apply lookup_delete_eq.
    rewrite (transport_total_delete m k v Hk).
    rewrite wrap64_add_r, wrap64_add_l. f_equal. lia.
  - rewrite transport_total_insert_fresh by assumption.
    rewrite N.add_0_l, wrap64_add_r. reflexivity.
Qed.

(** The wrapped total is the mathematical sum, reduced modulo 2^64. *)
Lemma transport_total_sum (m : gmap N N) : transport_total m = wrap64 (transport_sum m).
Proof.
  induction m as [|k v m Hk IH] using map_ind.
  - rewrite transport_total_empty, transport_sum_empty. reflexivity.
  - rewrite transport_total_insert_fresh, transport_sum_insert_fresh, IH by assumption.
    rewrite wrap64_add_l. f_equal. lia.
Qed.

Section ingest_total.
Context `{tcpip}.

Lemma ingest_all_transport_total ps : forall r,
  transport_total (transport_counts r) = packet_count r ->
  transport_total (transport_counts (ingest_all r ps)) = packet_count (ingest_all r ps).
Proof.
  induction ps as [|pi ps IH]; intros r Hr; [exact Hr|].
  rewrite ingest_all_cons. apply IH.
  rewrite ingest_packet_transport_counts, ingest_packet_packet_count,
    transport_total_increment, Hr. reflexivity.
Qed.

(** X11: the total [render_header] computes by adding up the tallies of
    [transport_counts] in 64 bits is [packet_count], after any sequence of
    ingestion calls on a fresh report, wrap-around included: the transport
    percentages of the header are taken against the number of packets. *)
Theorem ingest_all_transport_total_packet_count (ps : list packet_info) :
  let r := ingest_all new_one_page_report ps in
  transport_total (transport_counts r) = packet_count r /\
  transport_total (transport_counts r) = transport_sum (transport_counts r) mod 2 ^ 64.
Proof.
  cbv zeta. split; [|apply transport_total_sum].
  apply ingest_all_transport_total. reflexivity.
Qed.

End ingest_total.

(** ** The subscripts of [render_header] *)

Lemma map_subscript_lookup (m : gmap N N) k j :
  snd (map_subscript m k) !! j =
  if decide (k = j) then Some (default 0 (m !! k)) else m !! j.
Proof.
  unfold map_subscript. destruct (m !! k) as [v|] eqn:Hk; cbn [snd].
  - destruct (decide (k = j)) as [<-|]; [exact Hk | reflexivity].
  - rewrite lookup_insert. destruct (decide (k = j)); reflexivity.
Qed.

Lemma map_subscript_present (m : gmap N N) k :
  is_Some (m !! k) -> snd (map_subscript m k) = m.
Proof. intros [v Hv]. unfold map_subscript. rewrite Hv. reflexivity. Qed.

Lemma map_subscript_fst (m : gmap N N) k :
  fst (map_subscript m k) = default 0 (m !! k).
Proof. unfold map_subscript. destruct (m !! k); reflexivity. Qed.

Lemma header_subscripts_lookup_all (m : gmap N N) (k : N) :
  header_subscripts m !! k =
  if decide (k = ETHERTYPE_IP \/ k = ETHERTYPE_IPV6 \/ k = ETHERTYPE_ARP)
  then Some (default 0 (m !! k)) else m !! k.
Proof.
  unfold header_subscripts. rewrite !map_subscript_lookup.
  unfold ETHERTYPE_IP, ETHERTYPE_IPV6, ETHERTYPE_ARP.
  repeat destruct (decide _); subst; try discriminate; try reflexivity;
    exfalso; intuition congruence.
Qed.

Lemma transport_sum_map_subscript (m : gmap N N) k :
  transport_sum (snd (map_subscript m k)) = transport_sum m.
Proof.
  unfold map_subscript. destruct (m !! k) eqn:Hk; cbn [snd]; [reflexivity|].
  rewrite transport_sum_insert_fresh by assumption. lia.
Qed.

Lemma transport_total_map_subscript (m : gmap N N) k :
  transport_total (snd (map_subscript m k)) = transport_total m.
Proof.
  unfold map_subscript. destruct (m !! k) eqn:Hk; cbn [snd]; [reflexivity|].
  rewrite transport_total_insert_fresh, N.add_0_r by assumption.
  symmetry. apply transport_total_wrapped.
Qed.

Lemma header_subscripts_idempotent (m : gmap N N) :
  header_subscripts (header_subscripts m) = header_subscripts m.
Proof.
  assert (Hin : forall k,
            k = ETHERTYPE_IP \/ k = ETHERTYPE_IPV6 \/ k = ETHERTYPE_ARP ->
            is_Some (header_subscripts m !! k)).
  { intros k Hk. rewrite header_subscripts_lookup_all, decide_True by exact Hk. eauto. }
  unfold header_subscripts at 1.
  rewrite (map_subscript_present (header_subscripts m) ETHERTYPE_IP) by auto.
  rewrite (map_subscript_present (header_subscripts m) ETHERTYPE_IPV6) by auto.
  apply map_subscript_present. auto.
Qed.

Section render_report_properties.
Context `{cairo} `{libm} `{netviz} `{indeterminate}.


(** X13: a second [render] inserts nothing more: [transport_counts] after
    two passes is what it is after one, and the first pass leaves the sum of
    the tallies and the total the header divides by as they were (the
    entries it inserts are zeroes). *)
Theorem render_twice (outdir : string) (gen_unix gen_unix' : Z) (r : one_page_report) :
  exists r1 out1 r2 out2,
    render true outdir gen_unix r = Some (r1, out1) /\
    render true outdir gen_unix' r1 = Some (r2, out2) /\
    transport_counts r2 = transport_counts r1 /\
    transport_sum (transport_counts r1) = transport_sum (transport_counts r) /\
    transport_total (transport_counts r1) = transport_total (transport_counts r).
Proof.
  destruct (render_report outdir gen_unix r) as (out1 & lb & rb & Hout1).
  match type of Hout1 with
  | _ = Some (?r1, _) =>
      destruct (render_report outdir gen_unix' r1) as (out2 & lb' & rb' & Hout2)
  end.
  eexists _, out1, _, out2. split; [exact Hout1|]. split; [exact Hout2|].
  cbn [transport_counts set_addr_histograms set_transport_counts].
  split; [apply header_subscripts_idempotent|].
  unfold header_subscripts.
  rewrite !transport_sum_map_subscript, !transport_total_map_subscript. auto.
Qed.

End render_report_properties.

(** ** What the pass draws *)

Lemma shown_texts_app (a b : list cairo_op) :
  shown_texts (a ++ b) = shown_texts a ++ shown_texts b.
Proof. apply omap_app. Qed.

Section render_drawing.
Context `{cairo} `{libm} `{netviz} `{indeterminate}.

Lemma render_text_line_shown s t font_size line_space :
  shown_texts (surface (render_text_line s t font_size line_space)) =
  shown_texts (surface s) ++ [t].
Proof. cbn. rewrite shown_texts_app. reflexivity. Qed.

Lemma top_n_row_surface ll rl ls rs lb rb s ii :
  exists ops,
    surface (top_n_row ll rl ls rs lb rb s ii) = surface s ++ ops /\
    shown_texts ops = top_n_row_texts ll rl ls rs ii.
Proof.
  unfold top_n_row, top_n_row_texts. destruct (indeterminate_extents ii).
  destruct (ll !! ii); destruct (rl !! ii); cbn.
  - rewrite <- app_assoc. eexists. split; reflexivity.
  - eexists. split; reflexivity.
  - eexists. split; reflexivity.
  - exists []. rewrite app_nil_r. auto.
Qed.

Lemma top_n_rows_surface ll rl ls rs lb rb iis : forall s,
  exists ops,
    surface (fold_left (top_n_row ll rl ls rs lb rb) iis s) = surface s ++ ops /\
    shown_texts ops = flat_map (top_n_row_texts ll rl ls rs) iis.
Proof.
  induction iis as [|ii iis IH]; intros s.
  - exists []. rewrite app_nil_r. auto.
  - cbn [fold_left flat_map].
    destruct (IH (top_n_row ll rl ls rs lb rb s ii)) as (ops2 & Hs2 & Ht2).
    destruct (top_n_row_surface ll rl ls rs lb rb s ii) as (ops1 & Hs1 & Ht1).
    exists (ops1 ++ ops2). rewrite Hs2, Hs1, shown_texts_app, Ht1, Ht2, app_assoc. auto.
Qed.

Lemma top_n_row_texts_length ll rl ls rs n :
  length (flat_map (top_n_row_texts ll rl ls rs) (seq 0 n)) =
  (Nat.min n (length ll) + Nat.min n (length rl))%nat.
Proof.
  induction n as [|n IH]; [reflexivity|].
  rewrite seq_S, flat_map_app, length_app, IH. cbn [flat_map Nat.add].
  rewrite app_nil_r. unfold top_n_row_texts. rewrite length_app.
  assert (Hlen : forall (l : list count_pair) (f : count_pair -> text),
            (Nat.min n (length l) + length (option_list (f <$> l !! n)) =
             Nat.min (S n) (length l))%nat).
  { intros l f. destruct (l !! n) as [c|] eqn:Hl.
    - change (length (option_list (f <$> Some c))) with 1%nat.
      apply lookup_lt_Some in Hl. lia.
    - change (length (option_list (f <$> None))) with 0%nat.
      apply lookup_ge_None in Hl. lia. }
  pose proof (Hlen ll (fun entry => top_n_text n entry ls)).
  pose proof (Hlen rl (fun entry => top_n_text n entry rs)). lia.
Qed.

(** X14: the top-N renderer only adds to the drawing, and the lines it adds
    are, row by row, the left entry then the right entry of the row, for the
    rows below [histogram_show_top_n_text] that the lists reach: the lesser
    of the row count and the length of the list on each side, and nothing
    for an empty list or a row count of 0. *)
Theorem render_dual_histograms_top_n_texts (s : render_pass)
    (left_list right_list : list count_pair) (left_sum right_sum : N)
    (left_hist_bounds right_hist_bounds : plot.bounds_t) :
  let n := histogram_show_top_n_text (report s) in
  exists ops,
    surface (render_dual_histograms_top_n s left_list right_list left_sum right_sum
               left_hist_bounds right_hist_bounds) = surface s ++ ops /\
    shown_texts ops =
      flat_map (top_n_row_texts left_list right_list left_sum right_sum) (seq 0 n) /\
    length (shown_texts ops) =
      (Nat.min n (length left_list) + Nat.min n (length right_list))%nat.
Proof.
  intros n. unfold render_dual_histograms_top_n. cbn [surface advance].
  destruct (top_n_rows_surface left_list right_list left_sum right_sum
              left_hist_bounds right_hist_bounds (seq 0 n) s) as (ops & Hs & Ht).
  exists ops. split; [exact Hs|]. split; [exact Ht|].
  rewrite Ht. apply top_n_row_texts_length.
Qed.

End render_drawing.

Section render_texts.
Context `{cairo} `{libm} `{netviz} `{indeterminate}.

Lemma drawn_blocks_app (a b : list cairo_op) :
  drawn_blocks (a ++ b) = drawn_blocks a ++ drawn_blocks b.
Proof. apply List.filter_app. Qed.

Lemma top_n_row_drawn ll rl ls rs lb rb s ii :
  exists ops,
    surface (top_n_row ll rl ls rs lb rb s ii) = surface s ++ ops /\
    shown_texts ops = top_n_row_texts ll rl ls rs ii /\
    drawn_blocks ops = map cairo_show_text (shown_texts ops).
Proof.
  unfold top_n_row, top_n_row_texts. destruct (indeterminate_extents ii).
  destruct (ll !! ii); destruct (rl !! ii); cbn.
  - rewrite <- app_assoc. eexists. split; [reflexivity|]. split; reflexivity.
  - eexists. split; [reflexivity|]. split; reflexivity.
  - eexists. split; [reflexivity|]. split; reflexivity.
  - exists []. rewrite app_nil_r. auto.
Qed.

Lemma top_n_rows_drawn ll rl ls rs lb rb iis : forall s,
  exists ops,
    surface (fold_left (top_n_row ll rl ls rs lb rb) iis s) = surface s ++ ops /\
    shown_texts ops = flat_map (top_n_row_texts ll rl ls rs) iis /\
    drawn_blocks ops = map cairo_show_text (shown_texts ops).
Proof.
  induction iis as [|ii iis IH]; intros s.
  - exists []. rewrite app_nil_r. auto.
  - cbn [fold_left flat_map].
    destruct (IH (top_n_row ll rl ls rs lb rb s ii)) as (ops2 & Hs2 & Ht2 & Hb2).
    destruct (top_n_row_drawn ll rl ls rs lb rb s ii) as (ops1 & Hs1 & Ht1 & Hb1).
    exists (ops1 ++ ops2).
    rewrite Hs2, Hs1, drawn_blocks_app, shown_texts_app, map_app, Hb1, Hb2, Ht1, Ht2,
      app_assoc. auto.
Qed.

(** The six lines of the header.  The tallies of the transport line are
    read with a subscript, so an absent tag counts 0. *)
Lemma render_header_shown gen_unix s :
  let r := report s in
  let m := transport_counts r in
  let total := double_of_uint64 (transport_total m) in
  let tally k := default 0 (m !! k) in
  exists s' ops scaled suffix,
    render_header gen_unix s = Some s' /\
    report s' = set_transport_counts r (header_subscripts m) /\
    suffix ∈ size_suffixes /\
    surface s' = surface s ++ ops /\
    drawn_blocks ops = map cairo_show_text (shown_texts ops) /\
    shown_texts ops =
      [title_version;
       fmt_input (source_identifier r);
       fmt_generated gen_unix;
       fmt_date_range (tv_sec (earliest r)) (tv_sec (latest r));
       fmt_packets_analyzed (packet_count r) scaled suffix;
       fmt_transports
         (double_of_uint64 (tally ETHERTYPE_IP) / total * 100)
         (double_of_uint64 (tally ETHERTYPE_IPV6) / total * 100)
         (double_of_uint64 (tally ETHERTYPE_ARP) / total * 100)
         ((1 - double_of_uint64
                 (wrap64 (wrap64 (tally ETHERTYPE_IP + tally ETHERTYPE_IPV6)
                          + tally ETHERTYPE_ARP)) / total) * 100)].
Proof.
  intros r m total tally. subst tally. cbv beta.
  unfold render_header. cbn [report render_text_line render_text advance draw].
  destruct (size_suffixes_at_index (byte_count (report s))) as [suffix Hs].
  rewrite Hs. fold r. fold m.
  assert (Hs1 : map_subscript m ETHERTYPE_IP =
               (default 0 (m !! ETHERTYPE_IP), snd (map_subscript m ETHERTYPE_IP))).
  { rewrite <- map_subscript_fst. apply surjective_pairing. }
  rewrite Hs1.
  assert (Hs2 : map_subscript (snd (map_subscript m ETHERTYPE_IP)) ETHERTYPE_IPV6 =
               (default 0 (m !! ETHERTYPE_IPV6),
                snd (map_subscript (snd (map_subscript m ETHERTYPE_IP)) ETHERTYPE_IPV6))).
  { rewrite (surjective_pairing (map_subscript _ ETHERTYPE_IPV6)) at 1.
    rewrite map_subscript_fst, map_subscript_lookup.
    rewrite decide_False by discriminate. reflexivity. }
  rewrite Hs2.
  assert (Hs3 : map_subscript
                 (snd (map_subscript (snd (map_subscript m ETHERTYPE_IP)) ETHERTYPE_IPV6))
                 ETHERTYPE_ARP =
               (default 0 (m !! ETHERTYPE_ARP), header_subscripts m)).
  { rewrite (surjective_pairing (map_subscript _ ETHERTYPE_ARP)) at 1.
    rewrite map_subscript_fst, !map_subscript_lookup.
    rewrite !decide_False by discriminate. reflexivity. }
  rewrite Hs3.
  eexists _, _, _, suffix. split; [reflexivity|]. split; [reflexivity|].
  split; [eapply list_elem_of_lookup_2; exact Hs|].
  split; [cbn [surface advance draw]; rewrite <- !app_assoc; reflexivity|].
  split; reflexivity.
Qed.

(** The two bands: one plot each, as high as requested, at the cursor. *)
Lemma render_histogram_band_drawn s :
  (exists b,
     surface (render_bandwidth_histogram s) = surface s ++ [draw_time_histogram b] /\
     report (render_bandwidth_histogram s) = report s /\
     plot.x b = 0%float /\ plot.y b = end_of_content s /\
     plot.width b = plot.width (surface_bounds s) /\
     plot.height b = bandwidth_histogram_height /\
     end_of_content (render_bandwidth_histogram s) =
       (plot.y b + plot.height (time_histogram_render (bandwidth_histogram (report s)) b)
                   * histogram_pad_factor_y)%float) /\
  (exists b,
     surface (render_packetfall s) = surface s ++ [draw_packetfall b] /\
     report (render_packetfall s) = report s /\
     plot.x b = 0%float /\ plot.y b = end_of_content s /\
     plot.width b = plot.width (surface_bounds s) /\
     plot.height b = bandwidth_histogram_height).
Proof. split; eexists; repeat split. Qed.

(** The address step: the two plots side by side, then the top-list lines of
    the histograms as [render_iptree] left them. *)
Lemma render_address_histograms_drawn s :
  exists lb rb ops,
    let l := address_histogram_render_iptree (src_addr_histogram (report s))
               (src_tree (report s)) lb in
    let r := address_histogram_render_iptree (dst_addr_histogram (report s))
               (dst_tree (report s)) rb in
    let lc := parent_count_histogram (fst l) in
    let rc := parent_count_histogram (fst r) in
    report (render_address_histograms s) =
      set_addr_histograms (report s) (fst l) (fst r) /\
    surface (render_address_histograms s) =
      surface s ++ [draw_address_histogram SOURCE lb;
                    draw_address_histogram DESTINATION rb] ++ ops /\
    shown_texts ops =
      flat_map (top_n_row_texts (get_top_list lc) (get_top_list rc)
                  (get_count_sum lc) (get_count_sum rc))
        (seq 0 (histogram_show_top_n_text (report s))) /\
    drawn_blocks ops = map cairo_show_text (shown_texts ops) /\
    plot.x lb = 0%float /\ plot.y lb = end_of_content s /\ plot.y rb = end_of_content s /\
    plot.width lb = plot.width rb /\
    plot.height lb = address_histogram_height /\
    plot.height rb = address_histogram_height.
Proof.
  unfold render_address_histograms, render_dual_histograms_top_n.
  cbn [surface advance report draw src_addr_histogram dst_addr_histogram
       set_addr_histograms histogram_show_top_n_text].
  match goal with
  | |- context [fold_left (top_n_row ?ll ?rl ?ls ?rs ?lb ?rb) ?iis ?s0] =>
      destruct (top_n_rows_drawn ll rl ls rs lb rb iis s0) as (ops & Hs & Ht & Hb);
      destruct (top_n_rows ll rl ls rs lb rb iis s0) as [Hr _]
  end.
  rewrite Hs, Hr. cbn [surface report]. rewrite <- app_assoc.
  eexists _, _, ops. cbv zeta.
  split; [reflexivity|]. split; [reflexivity|]. split; [exact Ht|].
  split; [exact Hb|]. repeat split.
Qed.

Lemma render_port_histograms_drawn s :
  exists lb rb ops,
    let l := port_histogram_render SOURCE (src_port_histogram (report s)) lb in
    let r := port_histogram_render DESTINATION (dst_port_histogram (report s)) rb in
    report (render_port_histograms s) = report s /\
    surface (render_port_histograms s) =
      surface s ++ [draw_port_histogram SOURCE lb;
                    draw_port_histogram DESTINATION rb] ++ ops /\
    shown_texts ops =
      flat_map (top_n_row_texts (get_top_list (fst l)) (get_top_list (fst r))
                  (get_count_sum (fst l)) (get_count_sum (fst r)))
        (seq 0 (histogram_show_top_n_text (report s))) /\
    drawn_blocks ops = map cairo_show_text (shown_texts ops) /\
    plot.x lb = 0%float /\ plot.y lb = end_of_content s /\ plot.y rb = end_of_content s /\
    plot.width lb = plot.width rb /\
    plot.height lb = address_histogram_height /\
    plot.height rb = address_histogram_height.
Proof.
  unfold render_port_histograms, render_dual_histograms_top_n.
  cbn [surface advance report draw].
  match goal with
  | |- context [fold_left (top_n_row ?ll ?rl ?ls ?rs ?lb ?rb) ?iis ?s0] =>
      destruct (top_n_rows_drawn ll rl ls rs lb rb iis s0) as (ops & Hs & Ht & Hb);
      destruct (top_n_rows ll rl ls rs lb rb iis s0) as [Hr _]
  end.
  rewrite Hs, Hr. cbn [surface report advance draw]. rewrite <- app_assoc.
  eexists _, _, ops. cbv zeta.
  split; [reflexivity|]. split; [reflexivity|]. split; [exact Ht|].
  split; [exact Hb|]. repeat split.
Qed.

(** The whole pass, step by step. *)
Lemma render_drawn (outdir : string) (gen_unix : Z) (r : one_page_report) :
  exists r' fname hops scaled suffix ip4 ip6 arp other bb pb alb arb aops plb prb pops,
    render true outdir gen_unix r =
      Some (r', Some (fname,
                      [cairo_translate
                         (plot.x (bounds r) + plot.width (bounds r) * page_margin_factor)
                         (plot.y (bounds r) + plot.width (bounds r) * page_margin_factor)]
                      ++ hops ++ [draw_time_histogram bb] ++ [draw_packetfall pb]
                      ++ ([draw_address_histogram SOURCE alb;
                           draw_address_histogram DESTINATION arb] ++ aops)
                      ++ ([draw_port_histogram SOURCE plb;
                           draw_port_histogram DESTINATION prb] ++ pops))) /\
    suffix ∈ size_suffixes /\
    drawn_blocks hops = map cairo_show_text (shown_texts hops) /\
    shown_texts hops =
      [title_version; fmt_input (source_identifier r); fmt_generated gen_unix;
       fmt_date_range (tv_sec (earliest r)) (tv_sec (latest r));
       fmt_packets_analyzed (packet_count r) scaled suffix;
       fmt_transports ip4 ip6 arp other] /\
    (transport_counts r = ∅ -> ip4 = nan /\ ip6 = nan /\ arp = nan /\ other = nan) /\
    (let al := address_histogram_render_iptree (src_addr_histogram r) (src_tree r) alb in
     let ar := address_histogram_render_iptree (dst_addr_histogram r) (dst_tree r) arb in
     let lc := parent_count_histogram (fst al) in
     let rc := parent_count_histogram (fst ar) in
     shown_texts aops =
       flat_map (top_n_row_texts (get_top_list lc) (get_top_list rc)
                   (get_count_sum lc) (get_count_sum rc))
         (seq 0 (histogram_show_top_n_text r))) /\
    drawn_blocks aops = map cairo_show_text (shown_texts aops) /\
    (let pl := port_histogram_render SOURCE (src_port_histogram r) plb in
     let pr := port_histogram_render DESTINATION (dst_port_histogram r) prb in
     shown_texts pops =
       flat_map (top_n_row_texts (get_top_list (fst pl)) (get_top_list (fst pr))
                   (get_count_sum (fst pl)) (get_count_sum (fst pr)))
         (seq 0 (histogram_show_top_n_text r))) /\
    drawn_blocks pops = map cairo_show_text (shown_texts pops) /\
    (plot.x bb = 0%float /\ plot.height bb = bandwidth_histogram_height /\
     plot.x pb = 0%float /\ plot.height pb = bandwidth_histogram_height /\
     plot.y pb = (plot.y bb + plot.height
                    (time_histogram_render (bandwidth_histogram r) bb)
                  * histogram_pad_factor_y)%float) /\
    (plot.x alb = 0%float /\ plot.y alb = plot.y arb /\ plot.width alb = plot.width arb /\
     plot.height alb = address_histogram_height /\
     plot.height arb = address_histogram_height) /\
    (plot.x plb = 0%float /\ plot.y plb = plot.y prb /\ plot.width plb = plot.width prb /\
     plot.height plb = address_histogram_height /\
     plot.height prb = address_histogram_height).
Proof.
  unfold render.
  match goal with
  | |- context [render_header gen_unix ?s0] =>
      destruct (render_header_shown gen_unix s0)
        as (s1 & hops & scaled & suffix & Hh & Hr1 & Hsuf & Hs1 & Hb1 & Ht1)
  end.
  rewrite Hh. unfold render_map.
  destruct (render_histogram_band_drawn s1)
    as [(bb & Hs2 & Hr2 & Hbx & Hby & _ & Hbh & Hbe) _].
  rewrite Hr1 in Hbe. cbn [bandwidth_histogram set_transport_counts] in Hbe.
  set (s2 := render_bandwidth_histogram s1) in *.
  destruct (render_histogram_band_drawn s2)
    as [_ (pb & Hs3 & Hr3 & Hpx & Hpy & _ & Hph)].
  set (s3 := render_packetfall s2) in *.
  destruct (render_address_histograms_drawn s3)
    as (alb & arb & aops & Hr4 & Hs4 & Ht4 & Hb4 & Hax & Hay & Hary & Haw & Hah & Harh).
  set (s4 := render_address_histograms s3) in *.
  destruct (render_port_histograms_drawn s4)
    as (plb & prb & pops & Hr5 & Hs5 & Ht5 & Hb5 & Hpx' & Hpy' & Hpry & Hpw & Hplh & Hprh).
  cbv zeta in Hr4, Ht4, Ht5.
  rewrite Hr5, Hs5, Hs4, Hs3, Hs2, Hs1.
  rewrite Hr4 in Ht5. rewrite Hr3, Hr2, Hr1 in Hr4, Ht4, Ht5.
  cbn [report new_render_pass surface src_addr_histogram dst_addr_histogram src_tree
       dst_tree src_port_histogram dst_port_histogram histogram_show_top_n_text
       set_transport_counts set_addr_histograms bandwidth_histogram] in *.
  rewrite <- !app_assoc.
  eexists _, _, hops, scaled, suffix, _, _, _, _, bb, pb, alb, arb, aops, plb, prb, pops.
  split; [reflexivity|]. split; [exact Hsuf|]. split; [exact Hb1|].
  split; [exact Ht1|]. split.
  { intros Hempty. rewrite Hempty, transport_total_empty, !lookup_empty.
    cbn [default from_option]. change (wrap64 (wrap64 (0 + 0) + 0)) with 0.
    change (double_of_uint64 0 / double_of_uint64 0 * 100)%float with nan.
    change ((1 - double_of_uint64 0 / double_of_uint64 0) * 100)%float with nan.
    auto. }
  split; [exact Ht4|]. split; [exact Hb4|]. split; [exact Ht5|]. split; [exact Hb5|].
  split; [|split].
  - repeat split; try assumption.
    rewrite Hpy. exact Hbe.
  - repeat split; try assumption. congruence.
  - repeat split; try assumption. congruence.
Qed.

(** X15: the pass issues its drawing in a fixed order: the six header lines
    (title, input, generation time, date range from [earliest] and
    [latest], packet count with a size suffix of the table, transports),
    the bandwidth plot, the packetfall plot one padded band below it, the
    two address plots, the top-list lines of the address histograms as
    filled from the trees, the two port plots, the top-list lines of the
    port histograms; the map step draws nothing.  The plots of a pair are
    requested at the same offset, width and height, the left one at the left
    edge.  A plot entry stands for all that the collaborator draws. *)
Theorem render_shows (outdir : string) (gen_unix : Z) (r : one_page_report) :
  exists r' fname ops scaled suffix ip4 ip6 arp other bb pb alb arb plb prb,
    render true outdir gen_unix r = Some (r', Some (fname, ops)) /\
    suffix ∈ size_suffixes /\
    let al := address_histogram_render_iptree (src_addr_histogram r) (src_tree r) alb in
    let ar := address_histogram_render_iptree (dst_addr_histogram r) (dst_tree r) arb in
    let pl := port_histogram_render SOURCE (src_port_histogram r) plb in
    let pr := port_histogram_render DESTINATION (dst_port_histogram r) prb in
    let lines (lc rc : count_histogram) :=
      map cairo_show_text
        (flat_map (top_n_row_texts (get_top_list lc) (get_top_list rc)
                     (get_count_sum lc) (get_count_sum rc))
           (seq 0 (histogram_show_top_n_text r))) in
    drawn_blocks ops =
      map cairo_show_text
        [title_version;
         fmt_input (source_identifier r);
         fmt_generated gen_unix;
         fmt_date_range (tv_sec (earliest r)) (tv_sec (latest r));
         fmt_packets_analyzed (packet_count r) scaled suffix;
         fmt_transports ip4 ip6 arp other] ++
      [draw_time_histogram bb; draw_packetfall pb;
       draw_address_histogram SOURCE alb; draw_address_histogram DESTINATION arb] ++
      lines (parent_count_histogram (fst al)) (parent_count_histogram (fst ar)) ++
      [draw_port_histogram SOURCE plb; draw_port_histogram DESTINATION prb] ++
      lines (fst pl) (fst pr) /\
    (plot.x bb = 0%float /\ plot.height bb = bandwidth_histogram_height /\
     plot.x pb = 0%float /\ plot.height pb = bandwidth_histogram_height /\
     plot.y pb = (plot.y bb + plot.height
                    (time_histogram_render (bandwidth_histogram r) bb)
                  * histogram_pad_factor_y)%float) /\
    (plot.x alb = 0%float /\ plot.y alb = plot.y arb /\ plot.width alb = plot.width arb /\
     plot.height alb = address_histogram_height /\
     plot.height arb = address_histogram_height) /\
    (plot.x plb = 0%float /\ plot.y plb = plot.y prb /\ plot.width plb = plot.width prb /\
     plot.height plb = address_histogram_height /\
     plot.height prb = address_histogram_height).
Proof.
  destruct (render_drawn outdir gen_unix r)
    as (r' & fname & hops & scaled & suffix & ip4 & ip6 & arp & other & bb & pb & alb
        & arb & aops & plb & prb & pops & Hrender & Hsuf & Hhb & Hht & _ & Hat & Hab
        & Hpt & Hpb & Hband & Haddr & Hport).
  eexists r', fname, _, scaled, suffix, ip4, ip6, arp, other, bb, pb, alb, arb, plb, prb.
  split; [exact Hrender|]. split; [exact Hsuf|]. cbv zeta in *.
  split; [|split; [exact Hband|split; [exact Haddr|exact Hport]]].
  rewrite !drawn_blocks_app, Hhb, Hht, Hab, Hat, Hpb, Hpt.
  cbn. rewrite <- ?app_assoc. reflexivity.
Qed.

(** X16: a report with no tallies (an empty capture) prints its transport
    line with four NaN: the total is 0 and nothing guards the division. *)
Theorem render_empty_capture_transports (outdir : string) (gen_unix : Z)
    (r : one_page_report) :
  transport_counts r = ∅ ->
  exists r' fname ops,
    render true outdir gen_unix r = Some (r', Some (fname, ops)) /\
    fmt_transports nan nan nan nan ∈ shown_texts ops.
Proof.
  intros Hempty.
  destruct (render_drawn outdir gen_unix r)
    as (r' & fname & hops & scaled & suffix & ip4 & ip6 & arp & other & bb & pb & alb
        & arb & aops & plb & prb & pops & Hrender & _ & _ & Hht & Hnan & _).
  destruct (Hnan Hempty) as (-> & -> & -> & ->).
  eexists r', fname, _. split; [exact Hrender|].
  rewrite !shown_texts_app, Hht.
  rewrite !elem_of_app. right. left. rewrite !elem_of_cons. auto 10.
Qed.

End render_texts.

(** ** More runs of the model *)

Lemma ingest_packet_not_ip_witness :
  let r := ingest_packet new_one_page_report (sample_packet 10 500 60) in
  packet_count r = 1 /\ byte_count r = 60 /\
  bandwidth_histogram r = [(sample_packet 10 500 60, None)] /\
  src_tree r = [] /\ src_port_histogram r = [] /\
  transport_counts r !! 0x0800 = Some 1.
Proof.
  cbv zeta.
  destruct (ingest_packet_not_ip new_one_page_report (sample_packet 10 500 60))
    as (Hp & Hb & Ht & _ & Hbw & _ & Hs & _ & Hsp & _); try reflexivity.
  rewrite Hp, Hb, Hbw, Hs, Hsp.
  repeat (split; [reflexivity|]). exact Ht.
Defined.

Lemma ingest_packet_ip4_precedence_witness :
  @ingest_packet
    (Build_tcpip (@ip4_from_bytes sample_tcpip)
       (fun _ => Some (mk_ip6_dgram [] [] [])) (@tcp_from_bytes sample_tcpip))
    new_one_page_report (sample_ip4_tcp_packet 100 x02) =
  @ingest_packet sample_tcpip new_one_page_report (sample_ip4_tcp_packet 100 x02).
Proof.
  apply (ingest_packet_ip4_precedence (@ip4_from_bytes sample_tcpip)
           (fun _ => Some (mk_ip6_dgram [] [] [])) (@ip6_from_bytes sample_tcpip)
           (@tcp_from_bytes sample_tcpip)).
  vm_compute. eauto.
Defined.

Lemma ingest_all_latest_unchanged_witness :
  latest (ingest_all new_one_page_report
            [sample_packet 10 0 60; sample_packet 20 0 60; sample_packet 30 0 60]) =
  latest new_one_page_report.
Proof.
  apply ingest_all_latest_unchanged.
  repeat (apply Forall_cons; split; [right; vm_compute; discriminate|]).
  apply Forall_nil. exact I.
Defined.

Lemma render_empty_capture_transports_witness :
  exists r' fname ops,
    render true "out" 0 new_one_page_report = Some (r', Some (fname, ops)) /\
    fmt_transports nan nan nan nan ∈ shown_texts ops.
Proof.
  apply (render_empty_capture_transports "out" 0 new_one_page_report). reflexivity.
Defined.
